(** * The request handler of the federated AWS relying party

    A shallow embedding of [functions/federated_aws_rp/app.py]: the
    API Gateway entry point [lambda_handler] and the four operations it
    dispatches to ([redirect_to_idp], [handle_oidc_redirect_callback],
    [pick_role], [get_state]).

    Conventions of the embedding.
    - A Python value is a [pyval]; the cookie store, a [dict] with string
      keys that the code mutates in place, is a [gmap string pyval].
    - A Python function that mutates the store or may raise is a
      computation in the monad [M]: it threads the store and a trace of
      what was done to it, and it yields [Ok v] or [Raise e].  What was
      written to the store before an exception stays written, as in Python.
    - [utils.py] and [config.py] are collaborators of this module.  Their
      pure helpers are fields of [Env]; the helpers that talk to the
      identity provider or to AWS are answered by [perform], which gives
      every call its outcome.  A helper reads the store it is given and
      does not write to it.
    - [logger] calls are left out, except for the evaluation of their
      arguments where that evaluation can raise. *)

From Stdlib Require Import ZArith Ascii String List DecimalString.
From stdpp Require Import base gmap strings list fin_maps.

Local Open Scope Z_scope.
Local Open Scope string_scope.

(** ** Python values *)

(** The values that travel through the handler: what [json.loads] returns
    (numbers are kept to the integers) and what the code stores in the
    cookie.  A nested [dict] keeps its items in insertion order. *)
#[warnings="-register-all"]
Inductive pyval :=
| PNone
| PBool (b : bool)
| PInt (z : Z)
| PStr (s : string)
| PList (l : list pyval)
| PDict (d : list (string * pyval)).

Definition pyval_eq_dec : ∀ a b : pyval, {a = b} + {a ≠ b}.
Proof.
  fix IH 1. intros a b. decide equality.
  - apply bool_dec.
  - apply Z.eq_dec.
  - apply string_dec.
  - apply (List.list_eq_dec IH).
  - apply List.list_eq_dec. decide equality. apply string_dec.
Defined.

#[global] Instance pyval_eq_decision : EqDecision pyval := pyval_eq_dec.

(** ** Exceptions and results *)

Inductive exn :=
| AccessDenied (detail : pyval)      (* utils.AccessDenied *)
| KeyError (key : string)
| TypeError (msg : string)
| AttributeError (msg : string)
| ValueError (msg : string)
| BinasciiError (msg : string)       (* binascii.Error, a ValueError *)
| JSONDecodeError (msg : string)     (* json.JSONDecodeError, a ValueError *)
| UnicodeDecodeError (msg : string)  (* a ValueError *)
| OtherException (name : string).    (* any other subclass of Exception *)

Inductive res (A : Type) :=
| Ok (a : A)
| Raise (e : exn).
Arguments Ok {A} a.
Arguments Raise {A} e.

(** [str(e)] *)
Definition exn_str (e : exn) : string :=
  match e with
  | AccessDenied _ => "Access denied"
  | KeyError k => "'" ++ k ++ "'"
  | TypeError m | AttributeError m | ValueError m | BinasciiError m
  | JSONDecodeError m | UnicodeDecodeError m | OtherException m => m
  end.

(** ** Operations on Python values *)

(** [d.get(k)] and [d.get(k, default)] on the store *)
Definition py_get (d : gmap string pyval) (k : string) : pyval :=
  default PNone (d !! k).

Definition py_get_default (d : gmap string pyval) (k : string) (dflt : pyval) : pyval :=
  default dflt (d !! k).

(** Lookup in a nested [dict] *)
Fixpoint dict_lookup (k : string) (d : list (string * pyval)) : option pyval :=
  match d with
  | [] => None
  | (k', v) :: d' => if String.eqb k k' then Some v else dict_lookup k d'
  end.

(** [d.get(k)] on a nested [dict] *)
Definition dict_get (d : list (string * pyval)) (k : string) : pyval :=
  default PNone (dict_lookup k d).

(** [v == s] for a [str] literal [s] *)
Definition py_eq_str (v : pyval) (s : string) : bool :=
  match v with
  | PStr s' => String.eqb s' s
  | _ => false
  end.

(** [needle in hay] on two [str] *)
Fixpoint is_substring (needle hay : string) : bool :=
  String.prefix needle hay ||
  match hay with
  | EmptyString => false
  | String _ hay' => is_substring needle hay'
  end.

(** [v.get(k)]: only a [dict] has the method *)
Definition body_get (v : pyval) (k : string) : res pyval :=
  match v with
  | PDict d => Ok (dict_get d k)
  | _ => Raise (AttributeError "object has no attribute 'get'")
  end.

(** [k in v] for a [str] literal [k] *)
Definition py_contains (k : string) (v : pyval) : res bool :=
  match v with
  | PDict d => Ok (bool_decide (is_Some (dict_lookup k d)))
  | PList l => Ok (existsb (λ x, py_eq_str x k) l)
  | PStr s => Ok (is_substring k s)
  | PNone | PBool _ | PInt _ => Raise (TypeError "argument is not iterable")
  end.

(** [v[k]] for a [str] literal [k] *)
Definition py_getitem (v : pyval) (k : string) : res pyval :=
  match v with
  | PDict d =>
      match dict_lookup k d with
      | Some x => Ok x
      | None => Raise (KeyError k)
      end
  | PList _ => Raise (TypeError "list indices must be integers or slices, not str")
  | PStr _ => Raise (TypeError "string indices must be integers")
  | PNone | PBool _ | PInt _ => Raise (TypeError "object is not subscriptable")
  end.

(** [s.lower()], on the ASCII letters; a string is its UTF-8 bytes, and
    no character outside ASCII has an ASCII letter of ["true"] as its
    lower case *)
Definition lower_ascii (c : ascii) : ascii :=
  let n := nat_of_ascii c in
  if ((65 <=? n) && (n <=? 90))%nat then ascii_of_nat (n + 32) else c.

Fixpoint lower (s : string) : string :=
  match s with
  | EmptyString => EmptyString
  | String c s' => String (lower_ascii c) (lower s')
  end.

(** [s.split(',')[0]] *)
Fixpoint split_comma_first (s : string) : string :=
  match s with
  | EmptyString => EmptyString
  | String c s' => if Ascii.eqb c "," then EmptyString else String c (split_comma_first s')
  end.

(** ** Bytes and base64 *)

Definition byte_of_N (n : N) : Byte.byte :=
  default Byte.x00 (Byte.of_N (n mod 256)).

Definition b64_standard_alphabet : string :=
  "ABCDEFGHIJKLMNOPQRSTUVWXYZabcdefghijklmnopqrstuvwxyz0123456789+/".

Definition b64_urlsafe_alphabet : string :=
  "ABCDEFGHIJKLMNOPQRSTUVWXYZabcdefghijklmnopqrstuvwxyz0123456789-_".

Definition b64_char (alphabet : string) (n : N) : ascii :=
  default "="%char (String.get (N.to_nat n) alphabet).

(** Base64 of a byte string over an alphabet, with or without the
    trailing ["="] padding: three bytes give four characters. *)
Fixpoint b64_encode (alphabet : string) (pad : bool) (bs : list Byte.byte) : string :=
  let ch := b64_char alphabet in
  match bs with
  | [] => EmptyString
  | [a] =>
      let x := Byte.to_N a in
      String (ch (N.shiftr x 2))
        (String (ch (N.shiftl (N.land x 3) 4))
           (if pad then "==" else EmptyString))
  | [a; b] =>
      let x := Byte.to_N a in
      let y := Byte.to_N b in
      String (ch (N.shiftr x 2))
        (String (ch (N.lor (N.shiftl (N.land x 3) 4) (N.shiftr y 4)))
           (String (ch (N.shiftl (N.land y 15) 2))
              (if pad then "=" else EmptyString)))
  | a :: b :: c :: rest =>
      let x := Byte.to_N a in
      let y := Byte.to_N b in
      let z := Byte.to_N c in
      String (ch (N.shiftr x 2))
        (String (ch (N.lor (N.shiftl (N.land x 3) 4) (N.shiftr y 4)))
           (String (ch (N.lor (N.shiftl (N.land y 15) 2) (N.shiftr z 6)))
              (String (ch (N.land z 63)) (b64_encode alphabet pad rest))))
  end.

(** [base64.b64encode] *)
Definition b64encode (bs : list Byte.byte) : string :=
  b64_encode b64_standard_alphabet true bs.

(** Modelled from the spec: [base64_without_padding] is defined in
    utils.py, which is not among the sources; §4.2 has the verifier and
    the challenge "base64url-encoded without padding". *)
Definition base64_without_padding (bs : list Byte.byte) : string :=
  b64_encode b64_urlsafe_alphabet false bs.

(** The value of a character of the standard alphabet *)
Definition b64_value (c : ascii) : option N :=
  let n := N_of_ascii c in
  if ((65 <=? n) && (n <=? 90))%N then Some (n - 65)%N
  else if ((97 <=? n) && (n <=? 122))%N then Some (n - 71)%N
  else if ((48 <=? n) && (n <=? 57))%N then Some (n + 4)%N
  else if (n =? 43)%N then Some 62%N
  else if (n =? 47)%N then Some 63%N
  else None.

(** The next character of [s] that base64 does not skip, when it is the
    pad character *)
Fixpoint next_valid_is_pad (s : string) : bool :=
  match s with
  | EmptyString => false
  | String c s' =>
      if Ascii.eqb c "=" then true
      else match b64_value c with
           | Some _ => false
           | None => next_valid_is_pad s'
           end
  end.

(** [binascii.a2b_base64], as [base64.b64decode] calls it (no
    validation): characters outside the alphabet are skipped, a pad
    sequence ends the input, and leftover bits are an error.  The result
    is the number of leftover bits and the bytes, last byte first. *)
Fixpoint a2b_base64_loop (s : string) (quad_pos leftchar leftbits : N)
    (out : list Byte.byte) : N * list Byte.byte :=
  match s with
  | EmptyString => (leftbits, out)
  | String c s' =>
      if Ascii.eqb c "=" then
        if ((quad_pos <? 2) || ((quad_pos =? 2) && negb (next_valid_is_pad s')))%N
        then a2b_base64_loop s' quad_pos leftchar leftbits out
        else (0%N, out)
      else
        match b64_value c with
        | None => a2b_base64_loop s' quad_pos leftchar leftbits out
        | Some v =>
            let quad_pos' := ((quad_pos + 1) mod 4)%N in
            let leftchar' := N.lor (N.shiftl leftchar 6) v in
            let leftbits' := (leftbits + 6)%N in
            if (8 <=? leftbits')%N then
              let leftbits'' := (leftbits' - 8)%N in
              a2b_base64_loop s' quad_pos'
                (N.land leftchar' (N.ones leftbits'')) leftbits''
                (byte_of_N (N.shiftr leftchar' leftbits'') :: out)
            else a2b_base64_loop s' quad_pos' leftchar' leftbits' out
        end
  end.

Definition is_ascii_str (s : string) : bool :=
  forallb (λ c, (N_of_ascii c <? 128)%N) (list_ascii_of_string s).

(** The decimal text of a number, as [%d] prints it *)
Definition decimal (n : N) : string := NilEmpty.string_of_uint (N.to_uint n).

(** [base64.b64decode(s)] for the value of the event's ['body'] key:
    [None] is JSON null.  The count in the message for one character too
    many is the one [a2b_base64] computes from the bytes written. *)
Definition b64decode (s : option string) : res (list Byte.byte) :=
  match s with
  | None =>
      Raise (TypeError "argument should be a bytes-like object or ASCII string, not 'NoneType'")
  | Some s =>
      if is_ascii_str s then
        match a2b_base64_loop s 0 0 0 [] with
        | (0%N, out) => Ok (rev out)
        | (6%N, out) =>
            Raise (BinasciiError
                     ("Invalid base64-encoded string: number of data characters (" ++
                      decimal (N.of_nat (length out) / 3 * 4 + 1)%N ++
                      ") cannot be 1 more than a multiple of 4"))
        | _ => Raise (BinasciiError "Incorrect padding")
        end
      else Raise (ValueError "string argument should contain only ASCII characters")
  end.

(** ** The collaborators of app.py *)

(** [CONFIG], of config.py *)
Record Config := {
  cookie_name : string;
  oidc_scope : string;
  redirect_uri : string;
  client_id : string;
  default_session_duration : Z;
}.

(** What [get_discovery_document()] returns; app.py reads two of its keys. *)
Record DiscoveryDocument := {
  authorization_endpoint : string;
  jwks : pyval;
}.

(** What [read_resource(path)] returns: nothing, a [str] or [bytes] *)
Inductive resource :=
| NoResource
| TextResource (s : string)
| BinaryResource (bs : list Byte.byte).

(** The requests that leave the process for the identity provider or AWS,
    each with the arguments the code passes.  The first two are the steps
    of [login]; the others are helpers of utils.py. *)
Inductive call :=
| TokenEndpoint (code code_verifier : pyval)
| ValidateIdToken (id_token : pyval)
| ConvertAccountAlias (role_arn id_token cache : pyval)
| GetAwsFederationUrl (jwks : pyval) (store : gmap string pyval)
| GetEmailOrUsername (jwks id_token : pyval)
| TriggerGroupRoleMapRebuild (jwks id_token : pyval)
| GetRoles (id_token cache : pyval).

(** What app.py imports and calls.  [get_store] and
    [get_discovery_document] are taken as returning: [lambda_handler]
    calls them at lines 267 and 273, before its first [try], so that an
    exception of one of them would leave the handler on every request;
    the properties below are about the requests on which they return. *)
Record Env := {
  CONFIG : Config;
  get_discovery_document : DiscoveryDocument;
  (* utils.get_store: the cookie header decoded, empty when it is absent
     or fails its check *)
  get_store : string → gmap string pyval;
  get_destination_url : string → pyval;
  get_role_arn : gmap string string → pyval;
  read_resource : string → resource;
  (* mimetypes.guess_type(path)[0], with the two .woff entries added *)
  guess_type : string → option string;
  (* the outcome of a call to the identity provider or to AWS *)
  perform : call → res pyval;
  (* hashlib.sha256(data).digest() *)
  sha256 : list Byte.byte → list Byte.byte;
  (* json.loads on bytes *)
  json_loads : list Byte.byte → res pyval;
  (* int(s) on a str *)
  int_of_str : string → res Z;
}.

(** ** Responses *)

Inductive header :=
| HStr (s : string)
| HOptStr (s : option string)
  (* the authorization endpoint with its query replaced by the url-encoded
     parameters, in order *)
| HUrl (endpoint : string) (query : list (string * string))
  (* '<name>=<encode_cookie_value(store)>; <attributes>' *)
| HSetCookie (name : string) (store : gmap string pyval) (attributes : string).

Inductive response_body :=
| BodyNone
| BodyStr (s : string)
| BodyBytes (s : string).

Inductive response :=
  (* return_api_gateway_json(store, body), of utils.py, kept as its call *)
| ApiGatewayJson (store : option (gmap string pyval)) (body : option pyval)
| HttpResponse (statusCode : Z) (headers : list (string * header))
    (body : response_body) (isBase64Encoded : option bool).

Definition return_api_gateway_json (store : option (gmap string pyval))
    (body : option pyval) : response :=
  ApiGatewayJson store body.

(** The API Gateway event: the keys [lambda_handler] reads.  The proxy
    integration of API Gateway sends each of the five keys with every
    request, null when it has nothing to send, and an [Event] is such a
    dictionary: [None] is the JSON null.  A dictionary that lacks the key
    ['headers'] or ['queryStringParameters'] is no [Event]: on it line
    264 or line 272 raises [KeyError] before the first [try], and
    without a ['body'] key [event.get('body', '')] decodes the empty
    string while the error record stores [None]. *)
Record Event := {
  ev_path : string;
  ev_httpMethod : string;
  ev_headers : option (gmap string string);
  ev_queryStringParameters : option (gmap string string);
  ev_body : option string;
}.

(** ** The monad of store-mutating, raising code *)

Inductive event :=
| Assign (key : string) (value : pyval)   (* store[key] = value *)
| Called (c : call).

Record world := {
  store : gmap string pyval;
  trace : list event;
}.

Definition M (A : Type) : Type := world → res A * world.

#[global] Instance M_ret : MRet M := λ A a st, (Ok a, st).

#[global] Instance M_bind : MBind M := λ A B f m st,
  match m st with
  | (Ok a, st') => f a st'
  | (Raise e, st') => (Raise e, st')
  end.

Definition raise {A} (e : exn) : M A := λ st, (Raise e, st).

Definition lift {A} (r : res A) : M A := λ st, (r, st).

(** [store = s]: the local variable is bound *)
Definition bind_store (s : gmap string pyval) : M unit :=
  λ st, (Ok (), {| store := s; trace := trace st |}).

Definition read_store : M (gmap string pyval) := λ st, (Ok (store st), st).

(** [store[key] = value] *)
Definition assign (key : string) (value : pyval) : M unit :=
  λ st, (Ok (), {| store := <[key := value]> (store st);
                   trace := trace st ++ [Assign key value] |}).

(** [store[key]] *)
Definition subscript (key : string) : M pyval :=
  λ st, (match store st !! key with
         | Some v => Ok v
         | None => Raise (KeyError key)
         end, st).

(** [try: body / except <handled>: handler] *)
Definition try_except {A} (body : M A) (handler : exn → option (M A)) : M A :=
  λ st,
    match body st with
    | (Ok a, st') => (Ok a, st')
    | (Raise e, st') =>
        match handler e with
        | Some h => h st'
        | None => (Raise e, st')
        end
    end.

(** [try: body / except <handled>: handler / else: orelse]; what [orelse]
    raises is not handled *)
Definition try_except_else {A B} (body : M A) (handler : exn → option (M B))
    (orelse : A → M B) : M B :=
  λ st,
    match body st with
    | (Ok a, st') => orelse a st'
    | (Raise e, st') =>
        match handler e with
        | Some h => h st'
        | None => (Raise e, st')
        end
    end.

(** A function with a [store] variable of its own is called: the caller's
    variable is what it was when the function returns *)
Definition call_function {A} (f : M A) : M A :=
  λ st,
    let '(r, st') := f st in
    (r, {| store := store st; trace := trace st' |}).

(** [os.urandom(n)] on a source of random bytes read from position [pos] *)
Definition os_urandom (entropy : nat → Byte.byte) (n pos : nat) : list Byte.byte * nat :=
  (map entropy (seq pos n), (pos + n)%nat).

Definition initial_world : world := {| store := ∅; trace := [] |}.

(** ** app.py *)

Section App.

Context (env : Env).

(** A helper of utils.py is called; the call is recorded. *)
Definition helper (c : call) : M pyval :=
  λ st, (perform env c, {| store := store st; trace := trace st ++ [Called c] |}).

(** Modelled from the spec: [login] is defined in utils.py, which is not
    among the sources.  §4.4 (TokenExchanger.exchangeCode): it fails with
    [AccessDenied] if the error parameter is present, if the state does
    not exactly match the session's [oidc_state], or if the code is
    absent; otherwise it sends the code and the session's [code_verifier]
    to the token endpoint and validates the ID token, any failure of
    either being [AccessDenied]; it returns the raw token. *)
Definition login (state code error error_description : pyval)
    (cookie_header : string) : M pyval :=
  let session := get_store env cookie_header in
  if negb (bool_decide (error = PNone)) then
    raise (AccessDenied error_description)
  else if negb (bool_decide (state = py_get session "oidc_state")) then
    raise (AccessDenied PNone)
  else if bool_decide (code = PNone) then
    raise (AccessDenied PNone)
  else
    id_token ← try_except
      (helper (TokenEndpoint code (py_get session "code_verifier")))
      (λ _, Some (raise (AccessDenied PNone)));
    try_except
      (helper (ValidateIdToken id_token))
      (λ _, Some (raise (AccessDenied PNone)));;
    mret id_token.

(** POST /api/roles *)
Definition pick_role : M response :=
  let discovery_document := get_discovery_document env in
  try_except
    (s ← read_store;
     aws_federation_url ← helper (GetAwsFederationUrl (jwks discovery_document) s);
     assign "client_workflow_state" (PStr "aws_federate");;
     assign "client_workflow_value" (PDict [("awsFederationUrl", aws_federation_url)]))
    (λ e, match e with
          | AccessDenied _ => Some (
              assign "client_workflow_state" (PStr "error");;
              assign "client_workflow_value" (PDict [("message", PStr "Access denied")]))
          | _ => None
          end);;
  s ← read_store;
  mret (return_api_gateway_json (Some s) None).

(** /redirect_callback *)
Definition handle_oidc_redirect_callback (cookie_header : string) (body : pyval)
    (source_ip : string) : M response :=
  let discovery_document := get_discovery_document env in
  bind_store (get_store env cookie_header);;
  denied ← try_except
    (state ← lift (body_get body "state");
     code ← lift (body_get body "code");
     error ← lift (body_get body "error");
     error_description ← lift (body_get body "error_description");
     id_token ← login state code error error_description cookie_header;
     assign "id_token" id_token;;
     mret None)
    (λ e, match e with
          | AccessDenied _ => Some (
              assign "client_workflow_state" (PStr "error");;
              assign "client_workflow_value" (PDict [("message", PStr "Access denied")]);;
              s ← read_store;
              mret (Some (return_api_gateway_json (Some s) None)))
          | _ => None
          end);
  match denied with
  | Some result => mret result
  | None =>
      s ← read_store;
      returned ←
        (if py_eq_str (py_get s "action") "aws-web-console" then
           match s !! "role_arn" with
           | Some role_arn =>
               id_token ← subscript "id_token";
               role_arn' ← helper (ConvertAccountAlias role_arn id_token
                                     (py_get_default s "cache" (PBool true)));
               assign "role_arn" role_arn';;
               result ← pick_role;
               _ ← subscript "role_arn";
               id_token ← subscript "id_token";
               _ ← helper (GetEmailOrUsername (jwks discovery_document) id_token);
               mret (Some result)
           | None =>
               (* no role_arn passed, show role picker *)
               assign "client_workflow_state" (PStr "role_picker");;
               mret None
           end
         else if py_eq_str (py_get s "action") "rebuild-group-role-map" then
           (* This is how we output a message, even though it's not an error *)
           assign "client_workflow_state" (PStr "info");;
           assign "client_workflow_value" (PDict [("message", PStr "Processing rebuild...")]);;
           try_except_else
             (id_token ← subscript "id_token";
              helper (TriggerGroupRoleMapRebuild (jwks discovery_document) id_token))
             (λ e, match e with
                   | AccessDenied _ => Some (
                       assign "client_workflow_state" (PStr "error");;
                       assign "client_workflow_value" (PDict [("message", PStr "Access denied")]))
                   | _ => None
                   end)
             (λ result,
                id_token ← subscript "id_token";
                _ ← helper (GetEmailOrUsername (jwks discovery_document) id_token);
                assign "client_workflow_state" (PStr "info");;
                assign "client_workflow_value"
                  (PDict [("message", PStr "Group Role Map rebuild initiated")]));;
           mret None
         else
           assign "client_workflow_state" (PStr "error");;
           assign "client_workflow_value" (PDict [("message", PStr "Invalid action argument")]);;
           mret None);
      match returned with
      | Some result => mret result
      | None =>
          s ← read_store;
          mret (return_api_gateway_json (Some s) None)
      end
  end.

(** GET /api/state *)
Definition get_state : M response :=
  s ← read_store;
  mret (return_api_gateway_json None
          (Some (PDict [("state", py_get s "client_workflow_state");
                        ("value", py_get s "client_workflow_value")]))).

(** The store that [redirect_to_idp] builds, before [stored_vars] is
    merged into it *)
Definition new_store (action : string) (state code_verifier : string)
    (session_duration : option Z) (cache : bool) : gmap string pyval :=
  <["action" := PStr action]>
  (<["oidc_state" := PStr state]>
  (<["code_verifier" := PStr code_verifier]>
  (<["session_duration" := from_option PInt PNone session_duration]>
  (<["cache" := PBool cache]>
  (<["client_workflow_state" := PNone]>
  (<["client_workflow_value" := PNone]> ∅)))))).

(** / *)
Definition redirect_to_idp (action : string) (stored_vars : option (gmap string pyval))
    (session_duration : option Z) (cache : bool) (entropy : nat → Byte.byte) : response :=
  let discovery_document := get_discovery_document env in
  let '(random1, pos) := os_urandom entropy 32 0 in
  let code_verifier := base64_without_padding random1 in
  let code_challenge :=
    base64_without_padding (sha256 env (list_byte_of_string code_verifier)) in
  (* We're using "1" as the prefixed number *)
  let '(random2, _) := os_urandom entropy 32 pos in
  let state := "1-" ++ base64_without_padding random2 in
  let store := new_store action state code_verifier session_duration cache in
  let store :=
    match stored_vars with
    | Some vars => if bool_decide (vars = ∅) then store else vars ∪ store
    | None => store
    end in
  let url_parameters :=
    [("scope", oidc_scope (CONFIG env));
     ("response_type", "code");
     ("redirect_uri", redirect_uri (CONFIG env));
     ("client_id", client_id (CONFIG env));
     ("code_challenge", code_challenge);
     ("code_challenge_method", "S256");
     ("state", state)] in
  HttpResponse 302
    [("Location", HUrl (authorization_endpoint discovery_document) url_parameters);
     ("Content-Type", HStr "text/html");
     ("Cache-Control", HStr "max-age=0");
     ("Set-Cookie", HSetCookie (cookie_name (CONFIG env)) store
                      "Secure; SameSite=Lax; HttpOnly; Path=/; Max-Age=3600")]
    (BodyStr "Redirecting to identity provider") None.

(** Lines 276 to 283 of [lambda_handler]: the body is decoded and parsed;
    [json.JSONDecodeError] and [TypeError] are handled.  The error record
    stores [event.get('body')], the text or the null of the event. *)
Definition parse_body (event_body : option string) : res pyval :=
  let parsed :=
    match b64decode event_body with
    | Ok decoded_body => json_loads env decoded_body
    | Raise e => Raise e
    end in
  match parsed with
  | Ok parsed_body => Ok parsed_body
  | Raise e =>
      match e with
      | JSONDecodeError _ | TypeError _ =>
          Ok (PDict [("error", PStr "Unable to parse POST data");
                     ("body", from_option PStr PNone event_body);
                     ("exception", PStr (exn_str e))])
      | _ => Raise e
      end
  end.

Definition plain_response (statusCode : Z) (body : string) : response :=
  HttpResponse statusCode [("Content-Type", HStr "text/html")] (BodyStr body) None.

Definition is_truthy (r : resource) : bool :=
  match r with
  | NoResource => false
  | TextResource s => negb (String.eqb s "")
  | BinaryResource bs => negb (bool_decide (bs = []))
  end.

Definition lambda_handler (event : Event) (entropy : nat → Byte.byte) : M response :=
  let path := ev_path event in
  let headers := default ∅ (ev_headers event) in
  let source_ip := split_comma_first (default "unknown" (headers !! "X-Forwarded-For")) in
  let cookie_header := default "" (headers !! "Cookie") in
  bind_store (get_store env cookie_header);;
  let referer := default "" (headers !! "Referer") in
  let method := ev_httpMethod event in
  let query_string_parameters := default ∅ (ev_queryStringParameters event) in
  let discovery_document := get_discovery_document env in
  parsed_body ← lift (parse_body (ev_body event));
  try_except
    (if String.eqb path "/" then
       let stored_vars : gmap string pyval :=
         {[ "destination_url" := get_destination_url env referer ]} in
       let role_arn := get_role_arn env query_string_parameters in
       let stored_vars :=
         if bool_decide (role_arn = PNone) then stored_vars
         else <["role_arn" := role_arn]> stored_vars in
       let stored_vars :=
         match query_string_parameters !! "role" with
         | Some role => <["role_name" := PStr role]> stored_vars
         | None => stored_vars
         end in
       let stored_vars :=
         match query_string_parameters !! "account" with
         | Some account => <["role_account_alias" := PStr account]> stored_vars
         | None => stored_vars
         end in
       session_duration ← lift
         match query_string_parameters !! "session_duration" with
         | Some d => int_of_str env d
         | None => Ok (default_session_duration (CONFIG env))
         end;
       let action := default "aws-web-console" (query_string_parameters !! "action") in
       let cache :=
         String.eqb (lower (default "true" (query_string_parameters !! "cache"))) "true" in
       mret (redirect_to_idp action (Some stored_vars) (Some session_duration) cache entropy)
     else if String.eqb path "/redirect_uri" then
       assign "client_workflow_state" (PStr "redirecting");;
       let body := read_resource env "/index.html" in
       s ← read_store;
       mret (HttpResponse 200
               [("Content-Type", HStr "text/html");
                ("Set-Cookie", HSetCookie (cookie_name (CONFIG env)) s
                                 "Secure; HttpOnly; Path=/; Max-Age=3600; SameSite=strict")]
               match body with
               | NoResource => BodyNone
               | TextResource t => BodyStr t
               | BinaryResource bs => BodyBytes (string_of_list_byte bs)
               end None)
     else if String.eqb path "/redirect_callback" && String.eqb method "POST" then
       call_function (handle_oidc_redirect_callback cookie_header parsed_body source_ip)
     else if String.eqb path "/api/roles" then
       if String.eqb method "GET" then
         id_token ← subscript "id_token";
         s ← read_store;
         roles ← helper (GetRoles id_token (py_get_default s "cache" (PBool true)));
         assign "client_workflow_state" (PStr "awaiting_role");;
         s ← read_store;
         mret (return_api_gateway_json (Some s) (Some roles))
       else if String.eqb method "POST" then
         has_error ← lift (py_contains "error" parsed_body);
         invalid ←
           (if has_error : bool then mret true
            else has_arn ← lift (py_contains "arn" parsed_body); mret (negb has_arn));
         if invalid : bool then
           mret (plain_response 403 "Invalid POST data")
         else
           alias ← lift (py_getitem parsed_body "alias");
           arn ← lift (py_getitem parsed_body "arn");
           role ← lift (py_getitem parsed_body "role");
           assign "role_account_alias" alias;;
           assign "role_arn" arn;;
           assign "role_name" role;;
           result ← pick_role;
           _ ← subscript "role_arn";
           s ← read_store;
           _ ← helper (GetEmailOrUsername (jwks discovery_document) (py_get s "id_token"));
           mret result
       else
         mret (plain_response 405 "Method not allowed")
     else if String.eqb path "/api/state" then
       get_state
     else if String.eqb path "/api/heartbeat" then
       (* As we have no need for a heartbeat, we'll just respond indicating
          that it's running for ever *)
       s ← read_store;
       mret (return_api_gateway_json (Some s) (Some (PDict [("result", PStr "running")])))
     else if String.eqb path "/shutdown" then
       assign "client_workflow_state" (PStr "finished");;
       s ← read_store;
       mret (return_api_gateway_json (Some s) None)
     else
       let body := read_resource env path in
       if is_truthy body then
         (* static resource *)
         let content_type := guess_type env path in
         match body with
         | BinaryResource bs =>
             mret (HttpResponse 200 [("Content-Type", HOptStr content_type)]
                     (BodyBytes (b64encode bs)) (Some true))
         | TextResource t =>
             mret (HttpResponse 200 [("Content-Type", HOptStr content_type)]
                     (BodyStr t) (Some false))
         | NoResource => mret (plain_response 404 "Not Found")
         end
       else
         (* 404 *)
         mret (plain_response 404 "Not Found"))
    (λ e, Some (mret (plain_response 500 "Error"))).

End App.

(** ** Reading an event *)

Definition event_headers (event : Event) : gmap string string :=
  default ∅ (ev_headers event).

Definition event_query (event : Event) : gmap string string :=
  default ∅ (ev_queryStringParameters event).

Definition event_cookie (event : Event) : string :=
  default "" (event_headers event !! "Cookie").

Definition event_referer (event : Event) : string :=
  default "" (event_headers event !! "Referer").

(** The session duration a start request asks for *)
Definition requested_session_duration (env : Env) (event : Event) : res Z :=
  match event_query event !! "session_duration" with
  | Some d => int_of_str env d
  | None => Ok (default_session_duration (CONFIG env))
  end.

Definition requested_action (event : Event) : string :=
  default "aws-web-console" (event_query event !! "action").

(** The ['cache'] query parameter, ['true'] when it is absent *)
Definition requested_cache (event : Event) : string :=
  default "true" (event_query event !! "cache").

(** The session a request arrives with *)
Definition event_session (env : Env) (event : Event) : gmap string pyval :=
  get_store env (event_cookie event).

(** ** Reading a response *)

Fixpoint header_cookie (headers : list (string * header)) : option (gmap string pyval) :=
  match headers with
  | [] => None
  | (_, HSetCookie _ s _) :: _ => Some s
  | _ :: headers' => header_cookie headers'
  end.

(** The session record that a response hands back to the client *)
Definition cookie_of_response (r : response) : option (gmap string pyval) :=
  match r with
  | ApiGatewayJson s _ => s
  | HttpResponse _ headers _ _ => header_cookie headers
  end.

Definition status_of_response (r : response) : option Z :=
  match r with
  | ApiGatewayJson _ _ => None
  | HttpResponse statusCode _ _ _ => Some statusCode
  end.

Fixpoint header_location (headers : list (string * header)) : option (string * list (string * string)) :=
  match headers with
  | [] => None
  | (_, HUrl endpoint query) :: _ => Some (endpoint, query)
  | _ :: headers' => header_location headers'
  end.

Definition location_of_response (r : response) : option (string * list (string * string)) :=
  match r with
  | ApiGatewayJson _ _ => None
  | HttpResponse _ headers _ _ => header_location headers
  end.

(** The session record that the outcome of a run hands back, if any *)
Definition cookie_of_outcome (r : res response * world) : option (gmap string pyval) :=
  match r.1 with
  | Ok response => cookie_of_response response
  | Raise _ => None
  end.

(** [v[k]] has a value: [v] is a [dict] with the key [k] *)
Definition has_field (v : pyval) (k : string) : Prop :=
  ∃ x, py_getitem v k = Ok x.

(** A key of the session record that the outcome of a run hands back *)
Definition field_of_outcome (r : res response * world) (k : string) : option pyval :=
  match cookie_of_outcome r with
  | Some cookie => cookie !! k
  | None => None
  end.

(** A parameter of the query of the redirect *)
Fixpoint query_get (k : string) (query : list (string * string)) : option string :=
  match query with
  | [] => None
  | (k', v) :: query' => if String.eqb k k' then Some v else query_get k query'
  end.

(** The token exchange of a callback with parameters [d] succeeds with
    [id_token]: no error parameter, the state of the session, a code, and
    the two steps of [login] answered. *)
Definition exchange_succeeds (env : Env) (cookie_header : string)
    (d : list (string * pyval)) (id_token : pyval) : Prop :=
  let session := get_store env cookie_header in
  dict_get d "error" = PNone ∧
  dict_get d "state" = py_get session "oidc_state" ∧
  dict_get d "code" ≠ PNone ∧
  perform env (TokenEndpoint (dict_get d "code") (py_get session "code_verifier")) = Ok id_token ∧
  ∃ claims, perform env (ValidateIdToken id_token) = Ok claims.

(** The calls that a successful [login] makes *)
Definition login_calls (env : Env) (cookie_header : string)
    (d : list (string * pyval)) (id_token : pyval) : list event :=
  [Called (TokenEndpoint (dict_get d "code")
             (py_get (get_store env cookie_header) "code_verifier"));
   Called (ValidateIdToken id_token)].

(** ** A concrete deployment, for the examples *)

Module Demo.

Definition config : Config := {|
  cookie_name := "federated-aws-rp";
  oidc_scope := "openid";
  redirect_uri := "https://rp.example.com/redirect_uri";
  client_id := "client-1";
  default_session_duration := 43200;
|}.

Definition document : DiscoveryDocument := {|
  authorization_endpoint := "https://idp.example.com/authorize";
  jwks := PDict [("keys", PList [])];
|}.

Definition admin_arn : string := "arn:aws:iam::111122223333:role/Admin".

Definition session (action : string) : gmap string pyval :=
  <["client_workflow_state" := PStr "redirecting"]>
    (<["destination_url" := PNone]>
       (new_store action "1-abc" "verifier" (Some 3600) true)).

(** Four cookies decode to a session, every other one to none. *)
Definition decode (cookie_header : string) : gmap string pyval :=
  if String.eqb cookie_header "federated-aws-rp=console" then
    session "aws-web-console"
  else if String.eqb cookie_header "federated-aws-rp=console-role" then
    <["role_arn" := PStr admin_arn]> (session "aws-web-console")
  else if String.eqb cookie_header "federated-aws-rp=rebuild" then
    session "rebuild-group-role-map"
  else if String.eqb cookie_header "federated-aws-rp=signed-in" then
    {[ "id_token" := PStr "admin-token"; "action" := PStr "aws-web-console" ]}
  else ∅.

(** The identity provider knows two codes; the admin may federate and
    rebuild, the user may not. *)
Definition answer (c : call) : res pyval :=
  match c with
  | TokenEndpoint code _ =>
      if py_eq_str code "admin-code" then Ok (PStr "admin-token")
      else if py_eq_str code "user-code" then Ok (PStr "user-token")
      else Raise (OtherException "HTTPError")
  | ValidateIdToken _ => Ok PNone
  | ConvertAccountAlias role_arn _ _ => Ok role_arn
  | GetAwsFederationUrl _ s =>
      if py_eq_str (py_get s "id_token") "admin-token"
      then Ok (PStr "https://signin.aws.amazon.com/federation?Action=login&SigninToken=t0")
      else Raise (AccessDenied (PStr "not allowed to assume the role"))
  | GetEmailOrUsername _ _ => Ok (PStr "someone@example.com")
  | TriggerGroupRoleMapRebuild _ id_token =>
      if py_eq_str id_token "admin-token" then Ok PNone
      else Raise (AccessDenied (PStr "not in the rebuild group"))
  | GetRoles _ _ => Ok (PList [])
  end.

(** The JSON documents of the examples, recognised by their base64 text *)
Definition loads (bs : list Byte.byte) : res pyval :=
  let text := b64encode bs in
  if String.eqb text "eyJzdGF0ZSI6IjEtYWJjIiwiY29kZSI6ImFkbWluLWNvZGUifQ==" then
    Ok (PDict [("state", PStr "1-abc"); ("code", PStr "admin-code")])
  else if String.eqb text "eyJzdGF0ZSI6IjEtYWJjIiwiY29kZSI6InVzZXItY29kZSJ9" then
    Ok (PDict [("state", PStr "1-abc"); ("code", PStr "user-code")])
  else if String.eqb text "eyJzdGF0ZSI6IjEtYWJjIiwiY29kZSI6ImFkbWluLWNvZGUiLCJlcnJvciI6ImFjY2Vzc19kZW5pZWQiLCJlcnJvcl9kZXNjcmlwdGlvbiI6IjxiPnByb3ZpZGVyIHRleHQ8L2I+In0=" then
    Ok (PDict [("state", PStr "1-abc"); ("code", PStr "admin-code");
               ("error", PStr "access_denied");
               ("error_description", PStr "<b>provider text</b>")])
  else if String.eqb text "eyJhcm4iOiJhcm46YXdzOmlhbTo6MTExMTIyMjIzMzMzOnJvbGUvQWRtaW4iLCJhbGlhcyI6InByb2QiLCJyb2xlIjoiQWRtaW4ifQ==" then
    Ok (PDict [("arn", PStr admin_arn); ("alias", PStr "prod"); ("role", PStr "Admin")])
  else if String.eqb text "eyJhcm4iOiJhcm46YXdzOmlhbTo6MTExMTIyMjIzMzMzOnJvbGUvQWRtaW4iLCJyb2xlIjoiQWRtaW4ifQ==" then
    Ok (PDict [("arn", PStr admin_arn); ("role", PStr "Admin")])
  else Raise (JSONDecodeError "Expecting value").

Definition env : Env := {|
  CONFIG := config;
  get_discovery_document := document;
  get_store := decode;
  get_destination_url := λ _, PNone;
  get_role_arn := λ _, PNone;
  read_resource := λ _, NoResource;
  guess_type := λ _, None;
  perform := answer;
  sha256 := λ bs, bs;
  json_loads := loads;
  int_of_str := λ s, if String.eqb s "900" then Ok 900 else Raise (ValueError "invalid literal for int()");
|}.

Definition entropy (i : nat) : Byte.byte := byte_of_N (N.of_nat (7 * i)).

Definition request (path method cookie_header : string) (body : option string) : Event := {|
  ev_path := path;
  ev_httpMethod := method;
  ev_headers := Some {[ "Cookie" := cookie_header ]};
  ev_queryStringParameters := None;
  ev_body := body;
|}.

(** The parameters of three callbacks *)
Definition admin_params : list (string * pyval) :=
  [("state", PStr "1-abc"); ("code", PStr "admin-code")].

Definition user_params : list (string * pyval) :=
  [("state", PStr "1-abc"); ("code", PStr "user-code")].

Definition denied_params : list (string * pyval) :=
  [("state", PStr "1-abc"); ("code", PStr "admin-code");
   ("error", PStr "access_denied");
   ("error_description", PStr "<b>provider text</b>")].

(** Four requests *)
Definition start : Event := request "/" "GET" "" None.

Definition list_roles : Event := request "/api/roles" "GET" "" None.

Definition pick_without_alias : Event :=
  request "/api/roles" "POST" ""
    (Some "eyJhcm4iOiJhcm46YXdzOmlhbTo6MTExMTIyMjIzMzMzOnJvbGUvQWRtaW4iLCJyb2xlIjoiQWRtaW4ifQ==").

Definition state_query : Event :=
  request "/api/state" "GET" "federated-aws-rp=console" None.

(** What [parse_body] makes of a request without a body *)
Definition no_body : pyval :=
  PDict [("error", PStr "Unable to parse POST data");
         ("body", PNone);
         ("exception",
          PStr "argument should be a bytes-like object or ASCII string, not 'NoneType'")].

End Demo.

(** ** What a request may write *)

(** The keys of the session that a request after the start may write *)
Definition mutable_keys : list string :=
  ["id_token"; "role_arn"; "role_name"; "role_account_alias";
   "client_workflow_state"; "client_workflow_value"].

(** The workflow states that the code assigns *)
Definition workflow_states : list string :=
  ["redirecting"; "error"; "role_picker"; "aws_federate"; "info";
   "awaiting_role"; "finished"].

(** [s'] is [s] with mutable keys written: the other keys have the value
    they had, and no key is gone *)
Definition extends_session (s' s : gmap string pyval) : Prop :=
  (∀ k, k ∉ mutable_keys → s' !! k = s !! k) ∧
  (∀ k, is_Some (s !! k) → is_Some (s' !! k)).

(** An entry of the trace is a call, or an assignment of a workflow
    state of the list, of a workflow value that is a message or a
    federation URL, or of a token or role key *)
Definition allowed_event (ev : event) : bool :=
  match ev with
  | Called _ => true
  | Assign key value =>
      if String.eqb key "client_workflow_state" then
        match value with
        | PStr s => bool_decide (s ∈ workflow_states)
        | _ => false
        end
      else if String.eqb key "client_workflow_value" then
        match value with
        | PDict [(name, content)] =>
            if String.eqb name "message" then
              match content with
              | PStr _ => true
              | _ => false
              end
            else String.eqb name "awsFederationUrl"
        | _ => false
        end
      else bool_decide (key ∈ ["id_token"; "role_arn"; "role_name"; "role_account_alias"])
  end.
(** ** More requests and deployments, for the examples *)

Module Cases.

(** The cookie that the start of [Demo] sends *)
Definition first_cookie : gmap string pyval :=
  default ∅
    (cookie_of_outcome (lambda_handler Demo.env Demo.start Demo.entropy initial_world)).

(** The cookies of a sign-in decode to what was sent; one more session
    has an action that the callback does not know. *)
Definition decode (cookie_header : string) : gmap string pyval :=
  if String.eqb cookie_header "federated-aws-rp=step-1" then first_cookie
  else if String.eqb cookie_header "federated-aws-rp=step-2" then
    <["client_workflow_state" := PStr "redirecting"]> first_cookie
  else if String.eqb cookie_header "federated-aws-rp=other" then
    Demo.session "list-accounts"
  else Demo.decode cookie_header.

(** Two more documents: an empty list, and the parameters of the
    callback that answers the redirect of [first_cookie] *)
Definition loads (bs : list Byte.byte) : res pyval :=
  let text := b64encode bs in
  if String.eqb text "W10=" then Ok (PList [])
  else if String.eqb text "eyJzdGF0ZSI6IjEtNE9mdTlmd0RDaEVZSHlZdE5EdENTVkJYWG1Wc2MzcUJpSS1XbmFTcnNyayIsImNvZGUiOiJhZG1pbi1jb2RlIn0=" then
    Ok (PDict [("state", PStr "1-4Ofu9fwDChEYHyYtNDtCSVBXXmVsc3qBiI-WnaSrsrk");
               ("code", PStr "admin-code")])
  else Demo.loads bs.

Definition env : Env := {|
  CONFIG := Demo.config;
  get_discovery_document := Demo.document;
  get_store := decode;
  get_destination_url := λ _, PNone;
  get_role_arn := λ _, PNone;
  read_resource := λ path,
    if String.eqb path "/app.js" then TextResource "console.log(1)"
    else if String.eqb path "/logo.png" then BinaryResource [Byte.x89; Byte.x50]
    else NoResource;
  guess_type := λ path,
    if String.eqb path "/app.js" then Some "application/javascript" else None;
  perform := Demo.answer;
  sha256 := λ bs, bs;
  json_loads := loads;
  int_of_str := λ s,
    if String.eqb s "900" then Ok 900
    else Raise (ValueError "invalid literal for int()");
|}.

(** The same deployment, where the holder of a token cannot be read *)
Definition env_without_holder : Env := {|
  CONFIG := Demo.config;
  get_discovery_document := Demo.document;
  get_store := decode;
  get_destination_url := λ _, PNone;
  get_role_arn := λ _, PNone;
  read_resource := λ _, NoResource;
  guess_type := λ _, None;
  perform := λ c,
    match c with
    | GetEmailOrUsername _ _ => Raise (OtherException "JWTError")
    | _ => Demo.answer c
    end;
  sha256 := λ bs, bs;
  json_loads := loads;
  int_of_str := λ s,
    if String.eqb s "900" then Ok 900
    else Raise (ValueError "invalid literal for int()");
|}.

Definition utf8_body : Event :=
  Demo.request "/api/roles" "POST" ""
    (Some (String (ascii_of_nat 195) (String (ascii_of_nat 169) EmptyString))).

Definition shutdown : Event :=
  Demo.request "/shutdown" "POST" "federated-aws-rp=console" None.

Definition delete_roles : Event :=
  Demo.request "/api/roles" "DELETE" "federated-aws-rp=signed-in" None.

Definition list_roles : Event :=
  Demo.request "/api/roles" "GET" "federated-aws-rp=signed-in" None.

Definition callback_other : string := "federated-aws-rp=other".

Definition callback_with_list : Event :=
  Demo.request "/redirect_callback" "POST" "federated-aws-rp=console" (Some "W10=").

Definition pick : Event :=
  Demo.request "/api/roles" "POST" "federated-aws-rp=signed-in"
    (Some "eyJhcm4iOiJhcm46YXdzOmlhbTo6MTExMTIyMjIzMzMzOnJvbGUvQWRtaW4iLCJhbGlhcyI6InByb2QiLCJyb2xlIjoiQWRtaW4ifQ==").

Definition pick_params : list (string * pyval) :=
  [("arn", PStr Demo.admin_arn); ("alias", PStr "prod"); ("role", PStr "Admin")].

Definition script : Event := Demo.request "/app.js" "GET" "" None.

Definition start_again : Event :=
  Demo.request "/" "GET" "federated-aws-rp=signed-in" None.

Definition start_with_bad_duration : Event := {|
  ev_path := "/";
  ev_httpMethod := "GET";
  ev_headers := None;
  ev_queryStringParameters := Some {[ "session_duration" := "an hour" ]};
  ev_body := None;
|}.

Definition page : Event :=
  Demo.request "/redirect_uri" "GET" "federated-aws-rp=step-1" None.

Definition callback : Event :=
  Demo.request "/redirect_callback" "POST" "federated-aws-rp=step-2"
    (Some "eyJzdGF0ZSI6IjEtNE9mdTlmd0RDaEVZSHlZdE5EdENTVkJYWG1Wc2MzcUJpSS1XbmFTcnNyayIsImNvZGUiOiJhZG1pbi1jb2RlIn0=").

Definition callback_params : list (string * pyval) :=
  [("state", PStr "1-4Ofu9fwDChEYHyYtNDtCSVBXXmVsc3qBiI-WnaSrsrk");
   ("code", PStr "admin-code")].

End Cases.

(** ** Deployments whose helpers fail, for the examples *)

Module Failing.


(** The deployment of [Demo], where the rebuild cannot be started: the
    trigger fails with an error of the AWS client *)
Definition env_trigger_fails : Env := {|
  CONFIG := Demo.config;
  get_discovery_document := Demo.document;
  get_store := Demo.decode;
  get_destination_url := λ _, PNone;
  get_role_arn := λ _, PNone;
  read_resource := λ _, NoResource;
  guess_type := λ _, None;
  perform := λ c,
    match c with
    | TriggerGroupRoleMapRebuild _ _ => Raise (OtherException "ClientError")
    | _ => Demo.answer c
    end;
  sha256 := λ bs, bs;
  json_loads := Demo.loads;
  int_of_str := λ s,
    if String.eqb s "900" then Ok 900
    else Raise (ValueError "invalid literal for int()");
|}.


Definition rebuild_callback : Event :=
  Demo.request "/redirect_callback" "POST" "federated-aws-rp=rebuild"
    (Some "eyJzdGF0ZSI6IjEtYWJjIiwiY29kZSI6ImFkbWluLWNvZGUifQ==").

(** A role pick without a body *)
Definition pick_without_body : Event :=
  Demo.request "/api/roles" "POST" "federated-aws-rp=signed-in" None.

(** A role pick whose body is not base64 *)
Definition pick_with_bad_base64 : Event :=
  Demo.request "/api/roles" "POST" "federated-aws-rp=signed-in" (Some "abc").

End Failing.



(** * Properties *)

Section Properties.

Context (env : Env).

Local Arguments login : simpl never.
Local Arguments pick_role : simpl never.

Ltac run :=
  unfold handle_oidc_redirect_callback, get_state, helper,
    mbind, M_bind, mret, M_ret, lift, raise, try_except, try_except_else,
    bind_store, read_store, assign, subscript, call_function,
    return_api_gateway_json, body_get;
  simpl.

Ltac lookup_store :=
  repeat first [ rewrite lookup_insert_eq
               | rewrite lookup_insert_ne by discriminate ].

Ltac same_trace :=
  repeat match goal with x := _ : list event |- _ => subst x end;
  unfold login_calls; rewrite <- ?app_assoc; reflexivity.

Ltac in_trace :=
  solve [apply list_elem_of_In; rewrite ?in_app_iff; simpl; intuition].

Lemma py_get_insert_ne (s : gmap string pyval) k k' v :
  k ≠ k' → py_get (<[k := v]> s) k' = py_get s k'.
Proof. intros H. unfold py_get. by rewrite lookup_insert_ne. Qed.

(** ** The token exchange *)

Lemma login_denied cookie_header state code error error_description st :
  error ≠ PNone ∨ state ≠ py_get (get_store env cookie_header) "oidc_state" →
  ∃ detail,
    login env state code error error_description cookie_header st
    = (Raise (AccessDenied detail), st).
Proof.
  intros H. unfold login.
  destruct (decide (error = PNone)) as [He|He].
  - destruct H as [H|H]; [done|].
    rewrite (bool_decide_true _ He), (bool_decide_false _ H). simpl. by eexists.
  - rewrite (bool_decide_false _ He). simpl. by eexists.
Qed.

Lemma login_ok cookie_header d id_token st :
  exchange_succeeds env cookie_header d id_token →
  login env (dict_get d "state") (dict_get d "code") (dict_get d "error")
    (dict_get d "error_description") cookie_header st
  = (Ok id_token,
     {| store := store st;
        trace := trace st ++ login_calls env cookie_header d id_token |}).
Proof.
  intros (He & Hs & Hc & Ht & claims & Hv). unfold login, login_calls.
  rewrite (bool_decide_true _ He), (bool_decide_true _ Hs), (bool_decide_false _ Hc).
  run. rewrite Ht. simpl. rewrite Hv. simpl. by rewrite <- app_assoc.
Qed.


Lemma start_dispatch event entropy w parsed_body d :
  ev_path event = "/" →
  parse_body env (ev_body event) = Ok parsed_body →
  requested_session_duration env event = Ok d →
  ∃ vars : gmap string pyval,
    lambda_handler env event entropy w
    = (Ok (redirect_to_idp env (requested_action event) (Some vars) (Some d)
             (String.eqb (lower (requested_cache event)) "true") entropy),
       {| store := event_session env event; trace := trace w |})
    ∧ vars !! "destination_url" = Some (get_destination_url env (event_referer event))
    ∧ vars !! "role_arn" =
        (if bool_decide (get_role_arn env (event_query event) = PNone) then None
         else Some (get_role_arn env (event_query event)))
    ∧ vars !! "role_name" = PStr <$> event_query event !! "role"
    ∧ vars !! "role_account_alias" = PStr <$> event_query event !! "account"
    ∧ ∀ k, k ≠ "destination_url" → k ≠ "role_arn" → k ≠ "role_name" →
           k ≠ "role_account_alias" → vars !! k = None.
Proof.
  intros Hpath Hparse Hd.
  unfold lambda_handler. rewrite Hpath, Hparse. 
  unfold requested_session_duration, event_query in Hd.
  run. rewrite Hd. simpl.
  eexists. split; [reflexivity|].
  unfold event_query, event_referer, event_headers.
  destruct (default ∅ (ev_queryStringParameters event) !! "account"),
    (default ∅ (ev_queryStringParameters event) !! "role"),
    (bool_decide (get_role_arn env (default ∅ (ev_queryStringParameters event)) = PNone));
    (split_and!; [by simplify_map_eq ..|]);
    intros k H1 H2 H3 H4; repeat (rewrite lookup_insert_ne by congruence);
    apply lookup_singleton_ne; congruence.
Qed.

Lemma redirect_to_idp_unfold action vars d cache entropy :
  vars ≠ ∅ →
  let code_verifier := base64_without_padding (map entropy (seq 0 32)) in
  let code_challenge :=
    base64_without_padding (sha256 env (list_byte_of_string code_verifier)) in
  let state := "1-" ++ base64_without_padding (map entropy (seq 32 32)) in
  redirect_to_idp env action (Some vars) d cache entropy
  = HttpResponse 302
      [("Location",
        HUrl (authorization_endpoint (get_discovery_document env))
          [("scope", oidc_scope (CONFIG env));
           ("response_type", "code");
           ("redirect_uri", redirect_uri (CONFIG env));
           ("client_id", client_id (CONFIG env));
           ("code_challenge", code_challenge);
           ("code_challenge_method", "S256");
           ("state", state)]);
       ("Content-Type", HStr "text/html");
       ("Cache-Control", HStr "max-age=0");
       ("Set-Cookie",
        HSetCookie (cookie_name (CONFIG env))
          (vars ∪ new_store action state code_verifier d cache)
          "Secure; SameSite=Lax; HttpOnly; Path=/; Max-Age=3600")]
      (BodyStr "Redirecting to identity provider") None.
Proof.
  intros Hvars. unfold redirect_to_idp, os_urandom. cbv beta iota zeta.
  rewrite (bool_decide_false _ Hvars). reflexivity.
Qed.

Lemma new_store_lookup action state code_verifier d cache :
  let s := new_store action state code_verifier d cache in
  s !! "action" = Some (PStr action) ∧
  s !! "oidc_state" = Some (PStr state) ∧
  s !! "code_verifier" = Some (PStr code_verifier) ∧
  s !! "session_duration" = Some (from_option PInt PNone d) ∧
  s !! "cache" = Some (PBool cache) ∧
  s !! "client_workflow_state" = Some PNone ∧
  s !! "client_workflow_value" = Some PNone ∧
  s !! "destination_url" = None ∧
  s !! "role_arn" = None ∧
  s !! "role_name" = None ∧
  s !! "role_account_alias" = None.
Proof. unfold new_store. split_and!; by simplify_map_eq. Qed.

(** Every start request that gets past the parsing of its body and of its
    session duration is answered by the redirect, with this cookie. *)
Lemma start_transition event entropy w parsed_body d :
  ev_path event = "/" →
  parse_body env (ev_body event) = Ok parsed_body →
  requested_session_duration env event = Ok d →
  let code_verifier := base64_without_padding (map entropy (seq 0 32)) in
  let code_challenge :=
    base64_without_padding (sha256 env (list_byte_of_string code_verifier)) in
  let state := "1-" ++ base64_without_padding (map entropy (seq 32 32)) in
  ∃ cookie : gmap string pyval,
    lambda_handler env event entropy w
    = (Ok (HttpResponse 302
             [("Location",
               HUrl (authorization_endpoint (get_discovery_document env))
                 [("scope", oidc_scope (CONFIG env));
                  ("response_type", "code");
                  ("redirect_uri", redirect_uri (CONFIG env));
                  ("client_id", client_id (CONFIG env));
                  ("code_challenge", code_challenge);
                  ("code_challenge_method", "S256");
                  ("state", state)]);
              ("Content-Type", HStr "text/html");
              ("Cache-Control", HStr "max-age=0");
              ("Set-Cookie",
               HSetCookie (cookie_name (CONFIG env)) cookie
                 "Secure; SameSite=Lax; HttpOnly; Path=/; Max-Age=3600")]
             (BodyStr "Redirecting to identity provider") None),
       {| store := event_session env event; trace := trace w |})
    ∧ cookie !! "action" = Some (PStr (requested_action event))
    ∧ cookie !! "oidc_state" = Some (PStr state)
    ∧ cookie !! "code_verifier" = Some (PStr code_verifier)
    ∧ cookie !! "session_duration" = Some (PInt d)
    ∧ cookie !! "cache" = Some (PBool (String.eqb (lower (requested_cache event)) "true"))
    ∧ cookie !! "client_workflow_state" = Some PNone
    ∧ cookie !! "client_workflow_value" = Some PNone
    ∧ cookie !! "destination_url" = Some (get_destination_url env (event_referer event))
    ∧ cookie !! "role_arn" =
        (if bool_decide (get_role_arn env (event_query event) = PNone) then None
         else Some (get_role_arn env (event_query event)))
    ∧ cookie !! "role_name" = PStr <$> event_query event !! "role"
    ∧ cookie !! "role_account_alias" = PStr <$> event_query event !! "account".
Proof.
  intros Hpath Hparse Hd code_verifier code_challenge state.
  destruct (start_dispatch event entropy w parsed_body d Hpath Hparse Hd)
    as (vars & Hrun & Hdest & Harn & Hname & Halias & Hother).
  assert (Hne : vars ≠ ∅) by (intros ->; by rewrite lookup_empty in Hdest).
  rewrite (redirect_to_idp_unfold _ _ _ _ _ Hne) in Hrun.
  pose proof (new_store_lookup (requested_action event) state code_verifier (Some d)
                (String.eqb (lower (requested_cache event)) "true"))
    as (Na & Ns & Nv & Nd & Nc & Nws & Nwv & Ndest & Narn & Nname & Nalias).
  eexists. split; [exact Hrun|].
  assert (Hnew : ∀ k v, k ≠ "destination_url" → k ≠ "role_arn" → k ≠ "role_name" →
            k ≠ "role_account_alias" →
            new_store (requested_action event) state code_verifier (Some d)
              (String.eqb (lower (requested_cache event)) "true") !! k = v →
            (vars ∪ new_store (requested_action event) state code_verifier (Some d)
               (String.eqb (lower (requested_cache event)) "true")) !! k = v).
  { intros k v H1 H2 H3 H4 <-. apply lookup_union_r. by apply Hother. }
  split_and!.
  - by apply Hnew.
  - by apply Hnew.
  - by apply Hnew.
  - by apply Hnew.
  - by apply Hnew.
  - by apply Hnew.
  - by apply Hnew.
  - rewrite <- Hdest. by apply lookup_union_l.
  - rewrite <- Harn. by apply lookup_union_l.
  - rewrite <- Hname. by apply lookup_union_l.
  - rewrite <- Halias. by apply lookup_union_l.
Qed.

(** ** The length of a base64 text *)

Lemma list_ind3 {A} (P : list A → Prop) :
  P [] → (∀ a, P [a]) → (∀ a b, P [a; b]) →
  (∀ a b c l, P l → P (a :: b :: c :: l)) →
  ∀ l, P l.
Proof.
  intros H0 H1 H2 H3. fix IH 1.
  intros [|a [|b [|c l]]]; [done..|]. apply H3, IH.
Qed.

Lemma b64_encode_length alphabet bs :
  String.length (b64_encode alphabet false bs) = ((4 * length bs + 2) / 3)%nat.
Proof.
  induction bs as [|a|a b|a b c l IH] using list_ind3; [done..|].
  cbn [b64_encode String.length length]. rewrite IH.
  replace (4 * S (S (S (length l))) + 2)%nat with (4 * length l + 2 + 4 * 3)%nat by lia.
  rewrite Nat.div_add by done. lia.
Qed.

(** ** Upper and lower case *)

Lemma lower_ascii_cases (c lo up : ascii) :
  In (lo, up) [("t", "T"); ("r", "R"); ("u", "U"); ("e", "E")]%char →
  lower_ascii c = lo ↔ c = lo ∨ c = up.
Proof.
  intros [[= <- <-]|[[= <- <-]|[[= <- <-]|[[= <- <-]|[]]]]];
    (split; [|by intros [->| ->]]);
    destruct c as [[] [] [] [] [] [] [] []]; vm_compute; intros [=]; auto.
Qed.

Lemma lower_true_iff (s : string) :
  lower s = "true" ↔
  ∃ c1 c2 c3 c4 : ascii,
    s = String c1 (String c2 (String c3 (String c4 EmptyString))) ∧
    (c1 = "t" ∨ c1 = "T")%char ∧ (c2 = "r" ∨ c2 = "R")%char ∧
    (c3 = "u" ∨ c3 = "U")%char ∧ (c4 = "e" ∨ c4 = "E")%char.
Proof.
  split.
  - destruct s as [|c1 [|c2 [|c3 [|c4 [|c5 s]]]]]; cbn [lower]; intros [=].
    exists c1, c2, c3, c4. split; [done|].
    split_and!; (eapply lower_ascii_cases; [|eassumption]); simpl; auto.
  - intros (c1 & c2 & c3 & c4 & -> & H1 & H2 & H3 & H4). cbn [lower].
    f_equal; [|f_equal; [|f_equal; [|f_equal]]];
      (eapply lower_ascii_cases; [|eassumption]); simpl; auto.
Qed.

(** ** The role pick *)

(** [pick_role] on a store: the federation URL is asked for that store,
    and the state is written after the answer; an exception other than
    [AccessDenied] leaves the function. *)
Lemma pick_role_run st :
  pick_role env st
  = let keys := jwks (get_discovery_document env) in
    match perform env (GetAwsFederationUrl keys (store st)) with
    | Ok url =>
        let s := <["client_workflow_value" := PDict [("awsFederationUrl", url)]]>
                   (<["client_workflow_state" := PStr "aws_federate"]> (store st)) in
        (Ok (return_api_gateway_json (Some s) None),
         {| store := s;
            trace := (trace st ++
              [Called (GetAwsFederationUrl keys (store st));
               Assign "client_workflow_state" (PStr "aws_federate");
               Assign "client_workflow_value" (PDict [("awsFederationUrl", url)])])%list |})
    | Raise (AccessDenied detail) =>
        let s := <["client_workflow_value" := PDict [("message", PStr "Access denied")]]>
                   (<["client_workflow_state" := PStr "error"]> (store st)) in
        (Ok (return_api_gateway_json (Some s) None),
         {| store := s;
            trace := (trace st ++
              [Called (GetAwsFederationUrl keys (store st));
               Assign "client_workflow_state" (PStr "error");
               Assign "client_workflow_value" (PDict [("message", PStr "Access denied")])])%list |})
    | Raise e =>
        (Raise e,
         {| store := store st;
            trace := (trace st ++ [Called (GetAwsFederationUrl keys (store st))])%list |})
    end.
Proof.
  unfold pick_role. run.
  destruct (perform env _) as [url|e]; simpl.
  - by rewrite <- !app_assoc.
  - destruct e; simpl; try reflexivity. by rewrite <- !app_assoc.
Qed.

(** ** The handler as a whole *)

(** What the parsing of the body raises leaves the handler: lines 276 to
    283 are outside the [try] of line 284. *)
Lemma lambda_handler_parse_raises event entropy w e :
  parse_body env (ev_body event) = Raise e →
  lambda_handler env event entropy w
  = (Raise e, {| store := event_session env event; trace := trace w |}).
Proof. intros H. unfold lambda_handler. run. by rewrite H. Qed.

(** C2.  On every start transition the code verifier is the unpadded
    base64url text of 32 bytes taken from the random source (43
    characters), the [code_challenge] sent is the unpadded base64url text
    of the SHA-256 digest of the verifier string, the
    [code_challenge_method] is ["S256"], and the OIDC state is made of
    the next 32 bytes of the source: it is the same whatever the bytes
    of the verifier are. *)
Theorem start_pkce_pair event entropy w parsed_body d :
  ev_path event = "/" →
  parse_body env (ev_body event) = Ok parsed_body →
  requested_session_duration env event = Ok d →
  let random_verifier := map entropy (seq 0 32) in
  let random_state := map entropy (seq 32 32) in
  let code_verifier := base64_without_padding random_verifier in
  let code_challenge :=
    base64_without_padding (sha256 env (list_byte_of_string code_verifier)) in
  let state := "1-" ++ base64_without_padding random_state in
  length random_verifier = 32%nat ∧
  String.length code_verifier = 43%nat ∧
  (∃ response w' cookie endpoint query,
     lambda_handler env event entropy w = (Ok response, w') ∧
     cookie_of_response response = Some cookie ∧
     location_of_response response = Some (endpoint, query) ∧
     cookie !! "code_verifier" = Some (PStr code_verifier) ∧
     cookie !! "oidc_state" = Some (PStr state) ∧
     query_get "code_challenge" query = Some code_challenge ∧
     query_get "code_challenge_method" query = Some "S256" ∧
     query_get "state" query = Some state) ∧
  (∀ entropy' : nat → Byte.byte,
     (∀ i, (32 ≤ i < 64)%nat → entropy' i = entropy i) →
     ∃ response' w'' endpoint' query',
       lambda_handler env event entropy' w = (Ok response', w'') ∧
       location_of_response response' = Some (endpoint', query') ∧
       query_get "state" query' = Some state).
Proof.
  intros Hpath Hparse Hd random_verifier random_state code_verifier code_challenge state.
  split_and!.
  - unfold random_verifier. by rewrite length_map, length_seq.
  - unfold code_verifier, base64_without_padding, random_verifier.
    by rewrite b64_encode_length, length_map, length_seq.
  - destruct (start_transition event entropy w parsed_body d Hpath Hparse Hd)
      as (cookie & Hrun & _ & Hstate & Hverifier & _).
    do 5 eexists. split; [exact Hrun|]. by split_and!.
  - intros entropy' Hsame.
    destruct (start_transition event entropy' w parsed_body d Hpath Hparse Hd)
      as (cookie & Hrun & _).
    do 4 eexists. split; [exact Hrun|]. split; [done|].
    cbn [query_get String.eqb Ascii.eqb Bool.eqb]. unfold state, random_state.
    do 3 f_equal. apply map_ext_in. intros i Hi. apply in_seq in Hi.
    apply Hsame. lia.
Qed.

(** C4, as the code has it.  The start transition answers with a 302 to
    the authorization endpoint of the identity provider, whose query is
    [scope], [response_type=code], [redirect_uri], [client_id],
    [code_challenge], [code_challenge_method=S256] and [state], and with
    a cookie record that carries the action, the destination URL, the
    pre-selected role ARN, role name and account alias when there are
    any, the session duration, the cache flag, and the OIDC state and
    code verifier made in this step.  The workflow state and value of
    that record are null: ['redirecting'] is written when the browser
    comes back on /redirect_uri. *)
Theorem start_emits_redirect_and_cookie event entropy w parsed_body d :
  ev_path event = "/" →
  parse_body env (ev_body event) = Ok parsed_body →
  requested_session_duration env event = Ok d →
  (∃ response w' cookie code_challenge state code_verifier,
     lambda_handler env event entropy w = (Ok response, w') ∧
     status_of_response response = Some 302 ∧
     location_of_response response
     = Some (authorization_endpoint (get_discovery_document env),
             [("scope", oidc_scope (CONFIG env));
              ("response_type", "code");
              ("redirect_uri", redirect_uri (CONFIG env));
              ("client_id", client_id (CONFIG env));
              ("code_challenge", code_challenge);
              ("code_challenge_method", "S256");
              ("state", state)]) ∧
     cookie_of_response response = Some cookie ∧
     cookie !! "action" = Some (PStr (requested_action event)) ∧
     cookie !! "destination_url" = Some (get_destination_url env (event_referer event)) ∧
     cookie !! "role_arn" =
       (if bool_decide (get_role_arn env (event_query event) = PNone) then None
        else Some (get_role_arn env (event_query event))) ∧
     cookie !! "role_name" = PStr <$> event_query event !! "role" ∧
     cookie !! "role_account_alias" = PStr <$> event_query event !! "account" ∧
     cookie !! "session_duration" = Some (PInt d) ∧
     cookie !! "cache" = Some (PBool (String.eqb (lower (requested_cache event)) "true")) ∧
     cookie !! "oidc_state" = Some (PStr state) ∧
     cookie !! "code_verifier" = Some (PStr code_verifier) ∧
     cookie !! "client_workflow_state" = Some PNone ∧
     cookie !! "client_workflow_value" = Some PNone) ∧
  (∀ event' entropy' w0 parsed_body',
     ev_path event' = "/redirect_uri" →
     parse_body env (ev_body event') = Ok parsed_body' →
     ∃ response w',
       lambda_handler env event' entropy' w0 = (Ok response, w') ∧
       cookie_of_response response
       = Some (<["client_workflow_state" := PStr "redirecting"]> (event_session env event'))).
Proof.
  intros Hpath Hparse Hd. split.
  - destruct (start_transition event entropy w parsed_body d Hpath Hparse Hd)
      as (cookie & Hrun & Ha & Hs & Hv & Hdur & Hc & Hws & Hwv & Hdest & Harn & Hname & Halias).
    do 6 eexists. split; [exact Hrun|]. by split_and!.
  - intros event' entropy' w0 parsed_body' Hpath' Hparse'.
    unfold lambda_handler. rewrite Hpath', Hparse'. run. by do 2 eexists.
Qed.

(** A body whose decoding or parsing raises [json.JSONDecodeError] or
    [TypeError] is replaced by the error record, and a role pick that
    carries it is answered with the 403, the session being the one the
    request came with. *)
Lemma role_pick_unparsed_body_rejected event entropy w e :
  ev_path event = "/api/roles" →
  ev_httpMethod event = "POST" →
  match b64decode (ev_body event) with
  | Ok decoded_body => json_loads env decoded_body
  | Raise e => Raise e
  end = Raise e →
  (∃ msg, e = JSONDecodeError msg ∨ e = TypeError msg) →
  parse_body env (ev_body event)
  = Ok (PDict [("error", PStr "Unable to parse POST data");
               ("body", from_option PStr PNone (ev_body event));
               ("exception", PStr (exn_str e))]) ∧
  lambda_handler env event entropy w
  = (Ok (plain_response 403 "Invalid POST data"),
     {| store := event_session env event; trace := trace w |}).
Proof.
  intros Hpath Hmethod Hraise [msg He].
  assert (Hparse : parse_body env (ev_body event)
                   = Ok (PDict [("error", PStr "Unable to parse POST data");
                                ("body", from_option PStr PNone (ev_body event));
                                ("exception", PStr (exn_str e))])).
  { unfold parse_body. rewrite Hraise. by destruct He as [-> | ->]. }
  split; [exact Hparse|].
  unfold lambda_handler. rewrite Hpath, Hmethod, Hparse. by run.
Qed.

(** C9, at the failing input.  The body ["abc"] is not base64: decoding
    it raises [binascii.Error], which the [except] clause of line 279
    does not name, and the exception leaves [lambda_handler], whatever
    the path and the method of the request are. *)
Theorem lambda_handler_raises_on_bad_base64 path method headers query entropy w :
  lambda_handler env
    {| ev_path := path; ev_httpMethod := method; ev_headers := headers;
       ev_queryStringParameters := query; ev_body := Some "abc" |} entropy w
  = (Raise (BinasciiError "Incorrect padding"),
     {| store := get_store env (default "" (default ∅ headers !! "Cookie"));
        trace := trace w |}).
Proof. by apply lambda_handler_parse_raises. Qed.

Lemma has_field_dict d k : has_field (PDict d) k ↔ is_Some (dict_lookup k d).
Proof.
  unfold has_field. cbn [py_getitem]. destruct (dict_lookup k d); split.
  - by eexists.
  - by eexists.
  - by intros [x [=]].
  - by intros [x [=]].
Qed.

(** C5.  A role-pick request that lacks one of [arn], [alias] and [role]
    (its body is no [dict], or a [dict] without one of the keys) is
    rejected, with the 403 of the check of line 332 or with the 500 of
    the handler's [except], before any helper is called: the trace of the
    request has no call and no assignment, the session is the one the
    request came with, and the answer carries no cookie. *)
Theorem role_pick_missing_field_rejected event entropy w parsed_body :
  ev_path event = "/api/roles" →
  ev_httpMethod event = "POST" →
  parse_body env (ev_body event) = Ok parsed_body →
  ¬ (has_field parsed_body "arn" ∧ has_field parsed_body "alias" ∧
     has_field parsed_body "role") →
  ∃ status text,
    lambda_handler env event entropy w
    = (Ok (plain_response status text),
       {| store := event_session env event; trace := trace w |}) ∧
    (status = 403 ∨ status = 500).
Proof.
  intros Hpath Hmethod Hparse Hmissing.
  unfold lambda_handler. rewrite Hpath, Hmethod, Hparse. run.
  destruct parsed_body as [|b|z|s|l|d]; cbn [py_contains py_getitem].
  - exists 500, "Error". auto.
  - exists 500, "Error". auto.
  - exists 500, "Error". auto.
  - destruct (is_substring "error" s); [|destruct (is_substring "arn" s)]; simpl.
    + exists 403, "Invalid POST data". auto.
    + exists 500, "Error". auto.
    + exists 403, "Invalid POST data". auto.
  - destruct (existsb _ l); [|destruct (existsb _ l)]; simpl.
    + exists 403, "Invalid POST data". auto.
    + exists 500, "Error". auto.
    + exists 403, "Invalid POST data". auto.
  - rewrite !has_field_dict in Hmissing.
    destruct (dict_lookup "error" d) as [x|]; simpl.
    { exists 403, "Invalid POST data". auto. }
    destruct (dict_lookup "arn" d) as [arn|]; simpl;
      [|exists 403, "Invalid POST data"; auto].
    destruct (dict_lookup "alias" d) as [alias|]; simpl;
      [|exists 500, "Error"; auto].
    destruct (dict_lookup "role" d) as [role|]; simpl;
      [|exists 500, "Error"; auto].
    destruct Hmissing. by split_and!.
Qed.

(** C1.  A callback whose parameters carry an error, or a state other
    than the [oidc_state] of the session, leaves the session with the
    state [error] and the value [{'message': 'Access denied'}]: the
    answer and the record are these two assignments on the decoded
    session, whatever the code and the error description are, and
    nothing is sent to the identity provider. *)
Theorem callback_denied_is_fixed cookie_header d source_ip w :
  dict_get d "error" ≠ PNone ∨
  dict_get d "state" ≠ py_get (get_store env cookie_header) "oidc_state" →
  let denied :=
    <["client_workflow_value" := PDict [("message", PStr "Access denied")]]>
      (<["client_workflow_state" := PStr "error"]> (get_store env cookie_header)) in
  handle_oidc_redirect_callback env cookie_header (PDict d) source_ip w
  = (Ok (return_api_gateway_json (Some denied) None),
     {| store := denied;
        trace := (trace w ++
          [Assign "client_workflow_state" (PStr "error");
           Assign "client_workflow_value" (PDict [("message", PStr "Access denied")])])%list |}).
Proof.
  intros H denied. run.
  destruct (login_denied cookie_header _ (dict_get d "code") _ (dict_get d "error_description")
              {| store := get_store env cookie_header; trace := trace w |} H) as [detail ->].
  simpl. by rewrite <- app_assoc.
Qed.

(** C8.  The state query reads the workflow state and value of the store
    and changes nothing: [get_state] returns the world it was given, and
    a request on /api/state is answered with the two values of the
    session it came with, without a cookie and without an assignment. *)
Theorem state_query_is_read_only event entropy w parsed_body :
  ev_path event = "/api/state" →
  parse_body env (ev_body event) = Ok parsed_body →
  (∀ st,
     get_state st
     = (Ok (return_api_gateway_json None
              (Some (PDict [("state", py_get (store st) "client_workflow_state");
                            ("value", py_get (store st) "client_workflow_value")]))),
        st)) ∧
  lambda_handler env event entropy w
  = (Ok (return_api_gateway_json None
           (Some (PDict [("state", py_get (event_session env event) "client_workflow_state");
                         ("value", py_get (event_session env event) "client_workflow_value")]))),
     {| store := event_session env event; trace := trace w |}).
Proof.
  intros Hpath Hparse. split; [done|].
  unfold lambda_handler. rewrite Hpath, Hparse. by run.
Qed.

(** C6, as the code has it.  With an empty session, a role listing is
    answered with the generic 500: the lookup of [id_token] raises, no
    role is listed and no cookie is written.  A role pick is answered
    with the 403 of an invalid body, with the generic 500, or with the
    outcome of federation for the store of the three posted fields: the
    state [error], or [aws_federate] if the helper gives a URL for it. *)
Theorem roles_with_empty_session event entropy w parsed_body :
  ev_path event = "/api/roles" →
  parse_body env (ev_body event) = Ok parsed_body →
  event_session env event = ∅ →
  (ev_httpMethod event = "GET" →
   lambda_handler env event entropy w
   = (Ok (plain_response 500 "Error"), {| store := ∅; trace := trace w |})) ∧
  (ev_httpMethod event = "POST" →
   ∃ response w',
     lambda_handler env event entropy w = (Ok response, w') ∧
     (response = plain_response 403 "Invalid POST data" ∨
      response = plain_response 500 "Error" ∨
      ∃ s', response = ApiGatewayJson (Some s') None ∧
        (s' !! "client_workflow_state" = Some (PStr "error") ∨
         (s' !! "client_workflow_state" = Some (PStr "aws_federate") ∧
          ∃ alias arn role url,
            perform env
              (GetAwsFederationUrl (jwks (get_discovery_document env))
                 (<["role_name" := role]>
                    (<["role_arn" := arn]> (<["role_account_alias" := alias]> ∅))))
            = Ok url)))).
Proof.
  intros Hpath Hparse Hempty. unfold event_session, event_cookie, event_headers in Hempty.
  split; intros Hmethod.
  - unfold lambda_handler. rewrite Hpath, Hmethod, Hparse. run.
    rewrite Hempty. by rewrite lookup_empty.
  - unfold lambda_handler. rewrite Hpath, Hmethod, Hparse. run. rewrite Hempty.
    destruct parsed_body as [|b|z|s|l|pd]; cbn [py_contains py_getitem];
      try (by do 2 eexists; split; [reflexivity|auto]).
    + destruct (is_substring "error" s); [|destruct (is_substring "arn" s)]; simpl;
        do 2 eexists; (split; [reflexivity|auto]).
    + destruct (existsb _ l); [|destruct (existsb _ l)]; simpl;
        do 2 eexists; (split; [reflexivity|auto]).
    + destruct (dict_lookup "error" pd) as [x|]; simpl;
        [by do 2 eexists; split; [reflexivity|auto]|].
      destruct (dict_lookup "arn" pd) as [arn|]; simpl;
        [|by do 2 eexists; split; [reflexivity|auto]].
      destruct (dict_lookup "alias" pd) as [alias|]; simpl;
        [|by do 2 eexists; split; [reflexivity|auto]].
      destruct (dict_lookup "role" pd) as [role|]; simpl;
        [|by do 2 eexists; split; [reflexivity|auto]].
      rewrite pick_role_run. simpl.
      destruct (perform env (GetAwsFederationUrl _ _)) as [url|e] eqn:Hfed;
        [|destruct e]; simpl;
        try (by do 2 eexists; split; [reflexivity|auto]);
        lookup_store;
        (destruct (perform env (GetEmailOrUsername _ _)); simpl;
         [|by do 2 eexists; split; [reflexivity|auto]]);
        (do 2 eexists; split; [reflexivity|]; right; right;
         eexists; split; [reflexivity|]).
      * right. split; [by lookup_store|]. eauto.
      * left. by lookup_store.
Qed.

(** C10.  At the start of a flow the [cache] key of the cookie record is
    the boolean that tells whether the ['cache'] query parameter, taken
    as ['true'] when it is absent, is one of the sixteen spellings of
    ["true"] in upper and lower case.  Where the flag is read back, in
    the role listing and in the callback, the value handed to the helper
    is the one of the session, and [True] when the session has none. *)
Theorem cache_flag event entropy w parsed_body d :
  ev_path event = "/" →
  parse_body env (ev_body event) = Ok parsed_body →
  requested_session_duration env event = Ok d →
  let parameter := default "true" (event_query event !! "cache") in
  (∃ response w' cookie flag,
     lambda_handler env event entropy w = (Ok response, w') ∧
     cookie_of_response response = Some cookie ∧
     cookie !! "cache" = Some (PBool flag) ∧
     (flag = true ↔ lower parameter = "true") ∧
     (flag = true ↔
      ∃ c1 c2 c3 c4 : ascii,
        parameter = String c1 (String c2 (String c3 (String c4 EmptyString))) ∧
        (c1 = "t" ∨ c1 = "T")%char ∧ (c2 = "r" ∨ c2 = "R")%char ∧
        (c3 = "u" ∨ c3 = "U")%char ∧ (c4 = "e" ∨ c4 = "E")%char)) ∧
  (∀ listing entropy' w0 parsed_body' id_token,
     ev_path listing = "/api/roles" →
     ev_httpMethod listing = "GET" →
     parse_body env (ev_body listing) = Ok parsed_body' →
     event_session env listing !! "id_token" = Some id_token →
     Called (GetRoles id_token
               match event_session env listing !! "cache" with
               | Some flag => flag
               | None => PBool true
               end)
     ∈ trace (lambda_handler env listing entropy' w0).2) ∧
  (∀ cookie_header params source_ip id_token role_arn w0,
     exchange_succeeds env cookie_header params id_token →
     py_get (get_store env cookie_header) "action" = PStr "aws-web-console" →
     get_store env cookie_header !! "role_arn" = Some role_arn →
     Called (ConvertAccountAlias role_arn id_token
               match get_store env cookie_header !! "cache" with
               | Some flag => flag
               | None => PBool true
               end)
     ∈ trace (handle_oidc_redirect_callback env cookie_header (PDict params) source_ip w0).2).
Proof.
  intros Hpath Hparse Hd parameter. split_and!.
  - destruct (start_transition event entropy w parsed_body d Hpath Hparse Hd)
      as (cookie & Hrun & _ & _ & _ & _ & Hc & _).
    do 4 eexists. split; [exact Hrun|]. split; [done|]. split; [exact Hc|].
    fold parameter. unfold requested_cache. fold parameter.
    rewrite <- lower_true_iff. split; apply String.eqb_eq.
  - intros listing entropy' w0 parsed_body' id_token Hpath' Hmethod Hparse' Hid.
    unfold event_session, event_cookie, event_headers in *.
    unfold lambda_handler. rewrite Hpath', Hmethod, Hparse'. run. rewrite Hid. simpl.
    unfold py_get_default.
    destruct (perform env (GetRoles _ _)); simpl;
      destruct (get_store env _ !! "cache"); simpl; in_trace.
  - intros cookie_header params source_ip id_token role_arn w0 Hlogin Haction Hrole.
    run. rewrite (login_ok _ _ _ _ Hlogin). simpl.
    rewrite py_get_insert_ne, Haction by discriminate. simpl.
    rewrite lookup_insert_ne, Hrole by discriminate. simpl. lookup_store.
    unfold py_get_default. rewrite lookup_insert_ne by discriminate.
    destruct (get_store env cookie_header !! "cache") as [flag|]; simpl;
      (destruct (perform env (ConvertAccountAlias _ _ _)); simpl; [|in_trace]);
      rewrite pick_role_run; simpl;
      (destruct (perform env (GetAwsFederationUrl _ _)) as [url|e]; [|destruct e]); simpl;
      try in_trace; lookup_store;
      (destruct (perform env (GetEmailOrUsername _ _)); simpl; in_trace).
Qed.

(** ** What the handlers do not catch *)

(** An exception of the alias conversion leaves the callback. *)
Lemma callback_conversion_raises cookie_header d source_ip id_token role_arn e w :
  exchange_succeeds env cookie_header d id_token →
  py_get (get_store env cookie_header) "action" = PStr "aws-web-console" →
  get_store env cookie_header !! "role_arn" = Some role_arn →
  perform env
    (ConvertAccountAlias role_arn id_token
       (py_get_default (get_store env cookie_header) "cache" (PBool true))) = Raise e →
  (handle_oidc_redirect_callback env cookie_header (PDict d) source_ip w).1 = Raise e.
Proof.
  intros Hlogin Haction Hrole Hconvert.
  run. rewrite (login_ok _ _ _ _ Hlogin). simpl.
  rewrite py_get_insert_ne, Haction by discriminate. simpl.
  rewrite lookup_insert_ne, Hrole by discriminate. simpl. lookup_store.
  unfold py_get_default in *. rewrite lookup_insert_ne by discriminate.
  by rewrite Hconvert.
Qed.

(** An exception of the rebuild trigger that is not [AccessDenied]
    leaves the callback, with the state of the rebuild being processed
    in the store. *)
Lemma callback_trigger_raises cookie_header d source_ip id_token e w :
  exchange_succeeds env cookie_header d id_token →
  py_get (get_store env cookie_header) "action" = PStr "rebuild-group-role-map" →
  perform env (TriggerGroupRoleMapRebuild (jwks (get_discovery_document env)) id_token)
  = Raise e →
  (∀ detail, e ≠ AccessDenied detail) →
  (handle_oidc_redirect_callback env cookie_header (PDict d) source_ip w).1 = Raise e.
Proof.
  intros Hlogin Haction Htrigger He.
  run. rewrite (login_ok _ _ _ _ Hlogin). simpl.
  rewrite py_get_insert_ne, Haction by discriminate. simpl.
  lookup_store. rewrite Htrigger. simpl.
  destruct e; try reflexivity. by destruct (He detail).
Qed.

(** ** More of the handler *)

(** X3.  A body with a character outside ASCII makes [base64.b64decode]
    raise a [ValueError], which line 279 does not handle: the exception
    leaves [lambda_handler], whatever the request is. *)
Theorem non_ascii_body_raises event entropy w body :
  ev_body event = Some body →
  is_ascii_str body = false →
  lambda_handler env event entropy w
  = (Raise (ValueError "string argument should contain only ASCII characters"),
     {| store := event_session env event; trace := trace w |}).
Proof.
  intros Hbody Hascii. apply lambda_handler_parse_raises.
  unfold parse_body, b64decode. by rewrite Hbody, Hascii.
Qed.

(** X4.  The heartbeat and the shutdown call no helper, whatever the
    method of the request: the heartbeat hands the session back as it
    came, with the body [{'result': 'running'}]; the shutdown writes the
    state [finished] and leaves every other key of the session. *)
Theorem heartbeat_and_shutdown event entropy w parsed_body :
  parse_body env (ev_body event) = Ok parsed_body →
  let session := event_session env event in
  (ev_path event = "/api/heartbeat" →
   lambda_handler env event entropy w
   = (Ok (return_api_gateway_json (Some session)
            (Some (PDict [("result", PStr "running")]))),
      {| store := session; trace := trace w |})) ∧
  (ev_path event = "/shutdown" →
   let finished := <["client_workflow_state" := PStr "finished"]> session in
   lambda_handler env event entropy w
   = (Ok (return_api_gateway_json (Some finished) None),
      {| store := finished;
         trace := (trace w ++ [Assign "client_workflow_state" (PStr "finished")])%list |})
   ∧ ∀ k, k ≠ "client_workflow_state" → finished !! k = session !! k).
Proof.
  intros Hparse session. split; intros Hpath.
  - unfold lambda_handler. rewrite Hpath, Hparse. by run.
  - split.
    + unfold lambda_handler. rewrite Hpath, Hparse. by run.
    + intros k Hk. by apply lookup_insert_ne.
Qed.

(** X5.  On /api/roles a method other than GET and POST is answered 405,
    without a cookie, a call or an assignment. *)
Theorem roles_method_not_allowed event entropy w parsed_body :
  ev_path event = "/api/roles" →
  ev_httpMethod event ≠ "GET" →
  ev_httpMethod event ≠ "POST" →
  parse_body env (ev_body event) = Ok parsed_body →
  lambda_handler env event entropy w
  = (Ok (plain_response 405 "Method not allowed"),
     {| store := event_session env event; trace := trace w |}).
Proof.
  intros Hpath Hget Hpost Hparse.
  unfold lambda_handler. rewrite Hpath, Hparse. run.
  apply String.eqb_neq in Hget, Hpost. by rewrite Hget, Hpost.
Qed.

(** X6.  A role listing of a signed-in session asks [get_roles] with the
    token of the session.  When the helper returns, the roles are the
    body of the answer and the only key written is the workflow state,
    [awaiting_role]; when it raises, the answer is the generic 500 and
    nothing is written. *)
Theorem role_listing event entropy w parsed_body id_token :
  ev_path event = "/api/roles" →
  ev_httpMethod event = "GET" →
  parse_body env (ev_body event) = Ok parsed_body →
  event_session env event !! "id_token" = Some id_token →
  let session := event_session env event in
  let asked := GetRoles id_token (py_get_default session "cache" (PBool true)) in
  match perform env asked with
  | Ok roles =>
      let listed := <["client_workflow_state" := PStr "awaiting_role"]> session in
      lambda_handler env event entropy w
      = (Ok (return_api_gateway_json (Some listed) (Some roles)),
         {| store := listed;
            trace := (trace w ++
              [Called asked; Assign "client_workflow_state" (PStr "awaiting_role")])%list |})
  | Raise e =>
      lambda_handler env event entropy w
      = (Ok (plain_response 500 "Error"),
         {| store := session; trace := (trace w ++ [Called asked])%list |})
  end.
Proof.
  intros Hpath Hmethod Hparse Hid session asked.
  unfold event_session, event_cookie, event_headers in *.
  unfold lambda_handler. rewrite Hpath, Hmethod, Hparse. run. rewrite Hid. simpl.
  fold session. fold asked.
  destruct (perform env asked) as [roles|e]; simpl; [|done].
  by rewrite <- app_assoc.
Qed.

(** X7.  A callback of a session whose action is neither of the two,
    after a successful token exchange, keeps the token and writes the
    state [error] with the message of the invalid action; no helper is
    called. *)
Theorem callback_invalid_action cookie_header d source_ip id_token w :
  exchange_succeeds env cookie_header d id_token →
  py_get (get_store env cookie_header) "action" ≠ PStr "aws-web-console" →
  py_get (get_store env cookie_header) "action" ≠ PStr "rebuild-group-role-map" →
  let refused :=
    <["client_workflow_value" := PDict [("message", PStr "Invalid action argument")]]>
      (<["client_workflow_state" := PStr "error"]>
         (<["id_token" := id_token]> (get_store env cookie_header))) in
  handle_oidc_redirect_callback env cookie_header (PDict d) source_ip w
  = (Ok (return_api_gateway_json (Some refused) None),
     {| store := refused;
        trace := (trace w ++ login_calls env cookie_header d id_token ++
          [Assign "id_token" id_token;
           Assign "client_workflow_state" (PStr "error");
           Assign "client_workflow_value"
             (PDict [("message", PStr "Invalid action argument")])])%list |}).
Proof.
  intros Hlogin Hconsole Hrebuild refused.
  assert (Hneq : ∀ v s, v ≠ PStr s → py_eq_str v s = false).
  { intros v s H. destruct v; try reflexivity. simpl. apply String.eqb_neq. congruence. }
  run. rewrite (login_ok _ _ _ _ Hlogin). simpl.
  rewrite py_get_insert_ne by discriminate.
  rewrite (Hneq _ _ Hconsole), (Hneq _ _ Hrebuild). simpl.
  f_equal. f_equal. unfold login_calls. by rewrite <- !app_assoc.
Qed.

(** X8.  A callback whose parsed body is not a [dict] (a JSON list,
    string, number, boolean or null) is answered with the generic 500:
    [body.get] raises before [login] is reached, nothing is assigned and
    no cookie is sent. *)
Theorem callback_body_not_a_dict event entropy w parsed_body :
  ev_path event = "/redirect_callback" →
  ev_httpMethod event = "POST" →
  parse_body env (ev_body event) = Ok parsed_body →
  (∀ d, parsed_body ≠ PDict d) →
  lambda_handler env event entropy w
  = (Ok (plain_response 500 "Error"),
     {| store := event_session env event; trace := trace w |}).
Proof.
  intros Hpath Hmethod Hparse Hdict.
  unfold lambda_handler. rewrite Hpath, Hmethod, Hparse. run.
  destruct parsed_body as [|b|z|s|l|d]; try reflexivity. by destruct (Hdict d).
Qed.

(** X9.  [pick_role] changes no key of the store but the workflow state
    and value.  When it returns, the answer carries the store and the
    state is [aws_federate] or [error]; when it raises, the store is the
    one it was given and the exception is not [AccessDenied]. *)
Theorem pick_role_writes_workflow_only st :
  let outcome := pick_role env st in
  (∀ k, k ≠ "client_workflow_state" → k ≠ "client_workflow_value" →
        store outcome.2 !! k = store st !! k) ∧
  (∀ response,
     outcome.1 = Ok response →
     response = ApiGatewayJson (Some (store outcome.2)) None ∧
     (store outcome.2 !! "client_workflow_state" = Some (PStr "aws_federate") ∨
      store outcome.2 !! "client_workflow_state" = Some (PStr "error"))) ∧
  (∀ e,
     outcome.1 = Raise e →
     store outcome.2 = store st ∧ ∀ detail, e ≠ AccessDenied detail).
Proof.
  intros outcome. subst outcome. rewrite pick_role_run. cbv zeta.
  destruct (perform env _) as [url|e]; [|destruct e]; simpl; split_and!;
    try (by intros k H1 H2; rewrite ?lookup_insert_ne);
    try (by intros ? [=]);
    try (intros ? [= <-]; split; [done|]; lookup_store; by auto).
Qed.
(** X10.  A role pick whose body is a [dict] with [arn], [alias] and
    [role] and without [error] overwrites the three role keys of the
    session with the posted values and asks federation for that store.
    With the log line's lookup returning, the answer has the state
    [aws_federate] and the URL when federation gives one, and the state
    [error] when it is denied; the posted role is in the cookie of both
    answers. *)
Theorem role_pick_posted_fields event entropy w d arn alias role email :
  ev_path event = "/api/roles" →
  ev_httpMethod event = "POST" →
  parse_body env (ev_body event) = Ok (PDict d) →
  dict_lookup "error" d = None →
  dict_lookup "arn" d = Some arn →
  dict_lookup "alias" d = Some alias →
  dict_lookup "role" d = Some role →
  let keys := jwks (get_discovery_document env) in
  let picked :=
    <["role_name" := role]>
      (<["role_arn" := arn]>
         (<["role_account_alias" := alias]> (event_session env event))) in
  perform env (GetEmailOrUsername keys (py_get picked "id_token")) = Ok email →
  picked !! "role_arn" = Some arn ∧
  picked !! "role_name" = Some role ∧
  picked !! "role_account_alias" = Some alias ∧
  (∀ url,
     perform env (GetAwsFederationUrl keys picked) = Ok url →
     (lambda_handler env event entropy w).1
     = Ok (return_api_gateway_json
             (Some (<["client_workflow_value" := PDict [("awsFederationUrl", url)]]>
                      (<["client_workflow_state" := PStr "aws_federate"]> picked)))
             None)) ∧
  (∀ detail,
     perform env (GetAwsFederationUrl keys picked) = Raise (AccessDenied detail) →
     (lambda_handler env event entropy w).1
     = Ok (return_api_gateway_json
             (Some (<["client_workflow_value" := PDict [("message", PStr "Access denied")]]>
                      (<["client_workflow_state" := PStr "error"]> picked)))
             None)).
Proof.
  intros Hpath Hmethod Hparse Herror Harn Halias Hrole keys picked Hemail.
  split_and!; [by unfold picked; lookup_store..| |].
  - intros url Hfed.
    unfold lambda_handler. rewrite Hpath, Hmethod, Hparse. run.
    rewrite Herror, Harn, Halias, Hrole. simpl.
    rewrite pick_role_run. simpl. fold (event_session env event).
    unfold event_session, event_cookie, event_headers in *.
    fold picked. fold keys. rewrite Hfed. simpl. unfold picked at 1. lookup_store.
    unfold py_get. rewrite !lookup_insert_ne by discriminate.
    fold (py_get picked "id_token"). by rewrite Hemail.
  - intros detail Hfed.
    unfold lambda_handler. rewrite Hpath, Hmethod, Hparse. run.
    rewrite Herror, Harn, Halias, Hrole. simpl.
    rewrite pick_role_run. simpl.
    unfold event_session, event_cookie, event_headers in *.
    fold picked. fold keys. rewrite Hfed. simpl. unfold picked at 1. lookup_store.
    unfold py_get. rewrite !lookup_insert_ne by discriminate.
    fold (py_get picked "id_token"). by rewrite Hemail.
Qed.
(** X11.  The token holder is looked up for the log line after
    [pick_role] has returned: when that lookup raises, the role pick is
    answered with the generic 500 without a cookie, although federation
    has given its URL and the state [aws_federate] has been written to
    the store. *)
Theorem role_pick_lost_when_log_lookup_raises event entropy w d arn alias role url e :
  ev_path event = "/api/roles" →
  ev_httpMethod event = "POST" →
  parse_body env (ev_body event) = Ok (PDict d) →
  dict_lookup "error" d = None →
  dict_lookup "arn" d = Some arn →
  dict_lookup "alias" d = Some alias →
  dict_lookup "role" d = Some role →
  let keys := jwks (get_discovery_document env) in
  let picked :=
    <["role_name" := role]>
      (<["role_arn" := arn]>
         (<["role_account_alias" := alias]> (event_session env event))) in
  perform env (GetAwsFederationUrl keys picked) = Ok url →
  perform env (GetEmailOrUsername keys (py_get picked "id_token")) = Raise e →
  let outcome := lambda_handler env event entropy w in
  outcome.1 = Ok (plain_response 500 "Error") ∧
  cookie_of_outcome outcome = None ∧
  store outcome.2 !! "client_workflow_state" = Some (PStr "aws_federate") ∧
  Called (GetAwsFederationUrl keys picked) ∈ trace outcome.2.
Proof.
  intros Hpath Hmethod Hparse Herror Harn Halias Hrole keys picked Hfed Hemail outcome.
  assert (Hrun : outcome
    = (Ok (plain_response 500 "Error"),
       {| store := <["client_workflow_value" := PDict [("awsFederationUrl", url)]]>
                     (<["client_workflow_state" := PStr "aws_federate"]> picked);
          trace := (trace w ++
            [Assign "role_account_alias" alias; Assign "role_arn" arn;
             Assign "role_name" role;
             Called (GetAwsFederationUrl keys picked);
             Assign "client_workflow_state" (PStr "aws_federate");
             Assign "client_workflow_value" (PDict [("awsFederationUrl", url)]);
             Called (GetEmailOrUsername keys (py_get picked "id_token"))])%list |})).
  { subst outcome.
    unfold lambda_handler. rewrite Hpath, Hmethod, Hparse. run.
    rewrite Herror, Harn, Halias, Hrole. simpl.
    rewrite pick_role_run. simpl.
    unfold event_session, event_cookie, event_headers in *.
    fold picked. fold keys. rewrite Hfed. simpl. unfold picked at 1. lookup_store.
    unfold py_get. rewrite !lookup_insert_ne by discriminate.
    fold (py_get picked "id_token"). rewrite Hemail. simpl.
    f_equal. f_equal. by rewrite <- !app_assoc. }
  rewrite Hrun. split_and!; [done|done|by simpl; lookup_store|simpl; in_trace].
Qed.

(** X12.  A request that matches no route (any path other than the seven
    of the handler, and /redirect_callback with a method other than
    POST) is served from the resources: 404 when [read_resource] gives
    nothing or an empty value, the text as it is, and bytes as base64
    with [isBase64Encoded] set.  The session is not touched and no
    cookie is sent. *)
Theorem static_resource event entropy w parsed_body :
  parse_body env (ev_body event) = Ok parsed_body →
  ev_path event ≠ "/" →
  ev_path event ≠ "/redirect_uri" →
  ¬ (ev_path event = "/redirect_callback" ∧ ev_httpMethod event = "POST") →
  ev_path event ≠ "/api/roles" →
  ev_path event ≠ "/api/state" →
  ev_path event ≠ "/api/heartbeat" →
  ev_path event ≠ "/shutdown" →
  let content_type := [("Content-Type", HOptStr (guess_type env (ev_path event)))] in
  lambda_handler env event entropy w
  = (Ok match read_resource env (ev_path event) with
        | NoResource => plain_response 404 "Not Found"
        | TextResource t =>
            if String.eqb t "" then plain_response 404 "Not Found"
            else HttpResponse 200 content_type (BodyStr t) (Some false)
        | BinaryResource bs =>
            if bool_decide (bs = []) then plain_response 404 "Not Found"
            else HttpResponse 200 content_type (BodyBytes (b64encode bs)) (Some true)
        end,
     {| store := event_session env event; trace := trace w |}).
Proof.
  intros Hparse H1 H2 H3 H4 H5 H6 H7 content_type.
  unfold lambda_handler. rewrite Hparse.
  apply String.eqb_neq in H1, H2, H4, H5, H6, H7.
  rewrite H1, H2, H4, H5, H6, H7.
  assert (Hcb : String.eqb (ev_path event) "/redirect_callback"
                && String.eqb (ev_httpMethod event) "POST" = false).
  { apply andb_false_iff.
    destruct (String.eqb_spec (ev_path event) "/redirect_callback");
      destruct (String.eqb_spec (ev_httpMethod event) "POST"); auto.
    destruct H3; auto. }
  rewrite Hcb. run. unfold is_truthy.
  destruct (read_resource env (ev_path event)) as [|t|bs]; simpl; [done| |].
  - by destruct (String.eqb t "").
  - by destruct (bool_decide (bs = [])).
Qed.

(** X14.  A start request whose [session_duration] parameter is not an
    integer is answered with the generic 500: [int()] raises, no cookie
    is sent and no redirect is made. *)
Theorem start_with_bad_session_duration event entropy w parsed_body e :
  ev_path event = "/" →
  parse_body env (ev_body event) = Ok parsed_body →
  requested_session_duration env event = Raise e →
  lambda_handler env event entropy w
  = (Ok (plain_response 500 "Error"),
     {| store := event_session env event; trace := trace w |}).
Proof.
  intros Hpath Hparse Hd.
  unfold lambda_handler. rewrite Hpath, Hparse.
  unfold requested_session_duration, event_query in Hd.
  run. by rewrite Hd.
Qed.
(** X13.  The start does not read the session the request came with: two
    start requests with the same query and the same referer get the same
    answer from the same random bytes, whatever their cookies are.  The
    cookie of the answer has no key outside the eleven of a new record;
    in particular it has no [id_token]. *)
Theorem start_ignores_session event1 event2 entropy w1 w2 parsed1 parsed2 d :
  ev_path event1 = "/" →
  ev_path event2 = "/" →
  parse_body env (ev_body event1) = Ok parsed1 →
  parse_body env (ev_body event2) = Ok parsed2 →
  ev_queryStringParameters event1 = ev_queryStringParameters event2 →
  event_referer event1 = event_referer event2 →
  requested_session_duration env event1 = Ok d →
  (lambda_handler env event1 entropy w1).1 = (lambda_handler env event2 entropy w2).1 ∧
  ∃ cookie,
    cookie_of_outcome (lambda_handler env event1 entropy w1) = Some cookie ∧
    cookie !! "id_token" = None ∧
    ∀ k, k ∉ ["action"; "oidc_state"; "code_verifier"; "session_duration"; "cache";
              "client_workflow_state"; "client_workflow_value"; "destination_url";
              "role_arn"; "role_name"; "role_account_alias"] →
         cookie !! k = None.
Proof.
  intros Hpath1 Hpath2 Hparse1 Hparse2 Hquery Hreferer Hd1.
  assert (Hd2 : requested_session_duration env event2 = Ok d).
  { unfold requested_session_duration, event_query in *. by rewrite <- Hquery. }
  destruct (start_dispatch event1 entropy w1 parsed1 d Hpath1 Hparse1 Hd1)
    as (vars1 & Hrun1 & Hdest1 & Harn1 & Hname1 & Halias1 & Hother1).
  destruct (start_dispatch event2 entropy w2 parsed2 d Hpath2 Hparse2 Hd2)
    as (vars2 & Hrun2 & Hdest2 & Harn2 & Hname2 & Halias2 & Hother2).
  assert (Hvars : vars1 = vars2).
  { apply map_eq. intros k.
    destruct (decide (k = "destination_url")) as [->|K1];
      [by rewrite Hdest1, Hdest2, Hreferer|].
    destruct (decide (k = "role_arn")) as [->|K2];
      [rewrite Harn1, Harn2; unfold event_query; by rewrite Hquery|].
    destruct (decide (k = "role_name")) as [->|K3];
      [rewrite Hname1, Hname2; unfold event_query; by rewrite Hquery|].
    destruct (decide (k = "role_account_alias")) as [->|K4];
      [rewrite Halias1, Halias2; unfold event_query; by rewrite Hquery|].
    by rewrite Hother1, Hother2. }
  assert (Hne : vars1 ≠ ∅) by (intros ->; by rewrite lookup_empty in Hdest1).
  split.
  - rewrite Hrun1, Hrun2. simpl. do 2 f_equal; [|by rewrite Hvars|].
    + unfold requested_action, event_query. by rewrite Hquery.
    + unfold requested_cache, event_query. by rewrite Hquery.
  - unfold cookie_of_outcome. rewrite Hrun1.
    rewrite (redirect_to_idp_unfold _ _ _ _ _ Hne). simpl.
    eexists. split; [reflexivity|].
    assert (Hnone : ∀ k, k ∉ ["action"; "oidc_state"; "code_verifier"; "session_duration";
                               "cache"; "client_workflow_state"; "client_workflow_value";
                               "destination_url"; "role_arn"; "role_name";
                               "role_account_alias"] →
              (vars1 ∪ new_store (requested_action event1)
                 ("1-" ++ base64_without_padding (map entropy (seq 32 32)))
                 (base64_without_padding (map entropy (seq 0 32))) (Some d)
                 (String.eqb (lower (requested_cache event1)) "true")) !! k = None).
    { intros k Hk. repeat (apply not_elem_of_cons in Hk as [? Hk]).
      rewrite lookup_union_r by (by apply Hother1).
      unfold new_store. rewrite !lookup_insert_ne by congruence. apply lookup_empty. }
    split; [|exact Hnone].
    apply Hnone. repeat (apply not_elem_of_cons; split; [discriminate|]).
    apply not_elem_of_nil.
Qed.

(** ** What a request writes *)

Lemma extends_session_refl s : extends_session s s.
Proof. by split. Qed.

Lemma extends_session_insert s' s k v :
  k ∈ mutable_keys → extends_session s' s → extends_session (<[k := v]> s') s.
Proof.
  intros Hk [Hsame Hkept]. split.
  - intros k' Hk'. rewrite lookup_insert_ne by (by intros ->). by apply Hsame.
  - intros k' Hk'. destruct (decide (k = k')) as [->|Hne].
    + rewrite lookup_insert_eq. by eexists.
    + rewrite lookup_insert_ne by done. by apply Hkept.
Qed.

(** [login] ends with the store it started with, has only made calls,
    and raises nothing but [AccessDenied]. *)
Lemma login_cases state code error error_description cookie_header st :
  ∃ r calls,
    login env state code error error_description cookie_header st
    = (r, {| store := store st; trace := trace st ++ calls |}) ∧
    Forall (λ ev, allowed_event ev = true) calls ∧
    ∀ e, r = Raise e → ∃ detail, e = AccessDenied detail.
Proof.
  unfold login.
  destruct (bool_decide (error = PNone)); simpl;
    [|exists (Raise (AccessDenied error_description)), []; rewrite app_nil_r;
      destruct st; split_and!; [done|constructor|intros ? [= <-]; eauto] ].
  destruct (bool_decide (state = _)); simpl;
    [|exists (Raise (AccessDenied PNone)), []; rewrite app_nil_r;
      destruct st; split_and!; [done|constructor|intros ? [= <-]; eauto] ].
  destruct (bool_decide (code = PNone)); simpl;
    [exists (Raise (AccessDenied PNone)), []; rewrite app_nil_r;
      destruct st; split_and!; [done|constructor|intros ? [= <-]; eauto] |].
  run.
  destruct (perform env (TokenEndpoint _ _)) as [id_token|e]; simpl.
  - destruct (perform env (ValidateIdToken _)) as [claims|e]; simpl;
      eexists _, [_; _]; rewrite <- app_assoc;
      (split_and!; [reflexivity|by repeat constructor|intros ? [= <-]; eauto]).
  - eexists _, [_]. split_and!; [reflexivity|by repeat constructor|intros ? [= <-]; eauto].
Qed.
Ltac step :=
  match goal with
  | |- context [pick_role env ?st] => rewrite (pick_role_run st); cbv zeta; simpl
  | |- context [perform env ?c] => destruct (perform env c) as [?|?] eqn:?; simpl
  | |- context [py_eq_str ?a ?b] => destruct (py_eq_str a b) eqn:?; simpl
  | |- context [dict_lookup ?k ?d] => destruct (dict_lookup k d) eqn:?; simpl
  | |- context [is_substring ?a ?b] => destruct (is_substring a b) eqn:?; simpl
  | |- context [existsb ?f ?l] => destruct (existsb f l) eqn:?; simpl
  | |- context [@lookup _ _ (gmap string pyval) _ ?k ?s] =>
      destruct (@lookup _ _ (gmap string pyval) _ k s) eqn:?; simpl
  | |- context [match ?e with AccessDenied _ => _ | _ => _ end] =>
      is_var e; destruct e; simpl
  end.

Ltac steps := repeat (lookup_store; step).

Lemma grows_refl (t : list event) :
  ∃ new, t = (t ++ new)%list ∧ Forall (λ ev, allowed_event ev = true) new.
Proof. exists []. split; [by rewrite app_nil_r|constructor]. Qed.

Lemma grows_app (t t' l : list event) :
  (∃ new, t' = (t ++ new)%list ∧ Forall (λ ev, allowed_event ev = true) new) →
  Forall (λ ev, allowed_event ev = true) l →
  ∃ new, (t' ++ l)%list = (t ++ new)%list ∧ Forall (λ ev, allowed_event ev = true) new.
Proof.
  intros (new & -> & Hnew) Hl. exists (new ++ l)%list.
  split; [by rewrite app_assoc|by apply Forall_app].
Qed.

Ltac leaf_trace :=
  simpl;
  repeat first
    [ apply grows_refl
    | apply grows_app; [|first [assumption | by repeat constructor]] ].

Ltac leaf_frame :=
  simpl;
  first
    [ solve [intros ? [=]]
    | intros ? [= <-]; eexists; split; [reflexivity|];
      repeat (apply extends_session_insert;
              [solve [eapply bool_decide_eq_true_1; reflexivity]|]);
      apply extends_session_refl ].

Lemma handle_effects cookie_header body source_ip w :
  let outcome := handle_oidc_redirect_callback env cookie_header body source_ip w in
  (∃ new, trace outcome.2 = (trace w ++ new)%list ∧
          Forall (λ ev, allowed_event ev = true) new) ∧
  (∀ response,
     outcome.1 = Ok response →
     ∃ s', response = ApiGatewayJson (Some s') None ∧
           extends_session s' (get_store env cookie_header)).
Proof.
  intros outcome. subst outcome. run.
  destruct body as [|b|z|s|l|d]; simpl;
    try (split; [by exists []; rewrite app_nil_r|by intros ? [=]]).
  match goal with
  | |- context [login env ?a ?b ?c ?d ?e ?st] =>
      destruct (login_cases a b c d e st) as (r & calls & -> & Hcalls & Hr)
  end.
  destruct r as [id_token|e]; simpl.
  - steps; (split; [leaf_trace|leaf_frame]).
  - destruct (Hr e eq_refl) as [detail ->]. simpl. split; [leaf_trace|leaf_frame].
Qed.
Local Arguments handle_oidc_redirect_callback : simpl never.

Ltac run_handler :=
  unfold get_state, helper,
    mbind, M_bind, mret, M_ret, lift, raise, try_except, try_except_else,
    bind_store, read_store, assign, subscript, call_function,
    return_api_gateway_json;
  simpl.

Ltac step_handler :=
  match goal with
  | |- context [handle_oidc_redirect_callback env ?c ?b ?ip ?st] =>
      let H := fresh "Hcallback" in
      pose proof (handle_effects c b ip st) as H; cbv zeta in H;
      destruct (handle_oidc_redirect_callback env c b ip st) as [[?|?] ?];
      simpl in H; destruct H as [(? & -> & ?) ?]; simpl
  | |- context [String.eqb (ev_path ?e) ?b] =>
      destruct (String.eqb (ev_path e) b) eqn:?; simpl
  | |- context [String.eqb (ev_httpMethod ?e) ?b] =>
      destruct (String.eqb (ev_httpMethod e) b) eqn:?; simpl
  | |- context [read_resource env ?p] => destruct (read_resource env p) eqn:?; simpl
  | |- context [String.eqb ?a ""] => destruct (String.eqb a "") eqn:?; simpl
  | |- context [bool_decide (?a = [])] => destruct (bool_decide (a = [])) eqn:?; simpl
  | |- context [py_contains ?k ?v] => destruct v; simpl
  | _ => step
  end.

Ltac leaf_cookie :=
  simpl;
  first
    [ solve [intros ? ? [=]]
    | solve [intros ? ? [= <-]; simpl; intros [=]]
    | intros ? ? [= <-]; simpl; intros [= <-];
      repeat (apply extends_session_insert;
              [solve [eapply bool_decide_eq_true_1; reflexivity]|]);
      first [apply extends_session_refl | assumption]
    | intros ? ? [= <-];
      match goal with
      | H : ∀ r, Ok _ = Ok r → _ |- _ =>
          destruct (H _ eq_refl) as (? & -> & ?); simpl; by intros [= <-]
      end ].

Ltac leaf_status :=
  simpl;
  first
    [ solve [intros ? ? [=]]
    | intros ? ? [= <-]; simpl;
      first [ solve [intros [=]]
            | intros [= <-] ?; first [reflexivity | lia] ]
    | intros ? ? [= <-];
      match goal with
      | H : ∀ r, Ok _ = Ok r → _ |- _ =>
          destruct (H _ eq_refl) as (? & -> & ?); simpl; by intros [=]
      end ].

(** Every run of [lambda_handler]: what it adds to the trace, what the
    cookie of its answer keeps of the session, and which answers have a
    cookie. *)
Lemma lambda_handler_effects event entropy w :
  let outcome := lambda_handler env event entropy w in
  (∃ new, trace outcome.2 = (trace w ++ new)%list ∧
          Forall (λ ev, allowed_event ev = true) new) ∧
  (ev_path event ≠ "/" →
   ∀ response cookie,
     outcome.1 = Ok response →
     cookie_of_response response = Some cookie →
     extends_session cookie (event_session env event)) ∧
  (∀ response status,
     outcome.1 = Ok response →
     status_of_response response = Some status →
     (400 ≤ status)%Z →
     cookie_of_response response = None).
Proof.
  intros outcome. subst outcome.
  unfold lambda_handler, event_session, event_cookie, event_headers.
  run_handler.
  destruct (parse_body env (ev_body event)) as [parsed_body|e]; simpl;
    [|split_and!; [leaf_trace|by intros ? ? ? [=]|by intros ? ? [=]]].
  destruct (String.eqb (ev_path event) "/") eqn:Hroot; simpl.
  { apply String.eqb_eq in Hroot.
    destruct (match _ !! "session_duration" with Some d => _ | None => _ end);
      simpl; (split_and!; [leaf_trace|done|]).
    - unfold redirect_to_idp. simpl. intros ? ? [= <-]. simpl. intros [= <-]. lia.
    - leaf_status. }
  repeat (lookup_store; step_handler);
    (split_and!; [leaf_trace|intros _; leaf_cookie|leaf_status]).
Qed.
(** X15.  After the start no request changes what the start has put in
    the session: in every cookie that [lambda_handler] sends on a path
    other than /, the keys other than the token, the three role keys and
    the workflow state and value have the value they had in the session
    of the request, and no key of that session is missing. *)
Theorem session_parameters_are_kept event entropy w response cookie :
  ev_path event ≠ "/" →
  (lambda_handler env event entropy w).1 = Ok response →
  cookie_of_response response = Some cookie →
  (∀ k, k ∉ mutable_keys → cookie !! k = event_session env event !! k) ∧
  (∀ k, is_Some (event_session env event !! k) → is_Some (cookie !! k)).
Proof.
  intros Hpath Hrun Hcookie.
  exact (proj1 (proj2 (lambda_handler_effects event entropy w)) Hpath response cookie Hrun Hcookie).
Qed.

Lemma allowed_event_assign key value :
  allowed_event (Assign key value) = true →
  (key = "client_workflow_state" ∧ ∃ s, value = PStr s ∧ s ∈ workflow_states) ∨
  (key = "client_workflow_value" ∧
   ∃ content, value = PDict [("awsFederationUrl", content)] ∨
              (value = PDict [("message", content)] ∧ ∃ text, content = PStr text)) ∨
  key ∈ ["id_token"; "role_arn"; "role_name"; "role_account_alias"].
Proof.
  unfold allowed_event.
  destruct (String.eqb_spec key "client_workflow_state") as [->|_].
  { destruct value; try discriminate. intros H%bool_decide_eq_true_1. left. eauto. }
  destruct (String.eqb_spec key "client_workflow_value") as [->|_].
  { destruct value as [| | | | |[|[name content] [|]]]; try discriminate.
    destruct (String.eqb_spec name "message") as [->|_].
    - destruct content; try discriminate. intros _. right. left. split; [done|].
      eexists. right. split; [reflexivity|eauto].
    - intros ->%String.eqb_eq. right. left. split; [done|]. eexists. by left. }
  intros H%bool_decide_eq_true_1. by right; right.
Qed.

(** X16.  What a request assigns to the store: the workflow state, with
    one of the seven strings [redirecting], [error], [role_picker],
    [aws_federate], [info], [awaiting_role] and [finished]; the workflow
    value, with a federation URL or a message; the token and the three
    role keys.  No other key is assigned, on any path. *)
Theorem assignments_of_a_request event entropy w :
  ∃ new,
    trace (lambda_handler env event entropy w).2 = (trace w ++ new)%list ∧
    ∀ key value,
      Assign key value ∈ new →
      (key = "client_workflow_state" ∧ ∃ s, value = PStr s ∧ s ∈ workflow_states) ∨
      (key = "client_workflow_value" ∧
       ∃ content, value = PDict [("awsFederationUrl", content)] ∨
                  (value = PDict [("message", content)] ∧ ∃ text, content = PStr text)) ∨
      key ∈ ["id_token"; "role_arn"; "role_name"; "role_account_alias"].
Proof.
  destruct (proj1 (lambda_handler_effects event entropy w)) as (new & Htrace & Hnew).
  exists new. split; [exact Htrace|].
  intros key value Hin. apply allowed_event_assign.
  by apply (proj1 (Forall_forall _ _) Hnew).
Qed.

(** X17.  An answer with a status of 400 or more never carries a cookie:
    the 403, 404, 405 and 500 of the handler leave the session of the
    client as it was, whatever was assigned to the store before. *)
Theorem error_answers_carry_no_cookie event entropy w response status :
  (lambda_handler env event entropy w).1 = Ok response →
  status_of_response response = Some status →
  (400 ≤ status)%Z →
  cookie_of_response response = None.
Proof.
  intros Hrun Hstatus Hge.
  exact (proj2 (proj2 (lambda_handler_effects event entropy w))
           response status Hrun Hstatus Hge).
Qed.
(** X18.  A sign-in over three requests.  The start makes the verifier
    and the state; the browser brings the cookie of the start to
    /redirect_uri and the cookie of that page to the callback.  When the
    callback carries the state of the redirect and a code that the token
    endpoint accepts with the verifier of the start, and the start asked
    for the console without a role, the cookie of the callback has the
    state [role_picker] and the token, and still the state, the verifier
    and the session duration of the start. *)
Theorem sign_in_round_trip start page callback entropy entropy2 entropy3 w1 w2 w3
    parsed1 parsed2 d duration id_token :
  let code_verifier := base64_without_padding (map entropy (seq 0 32)) in
  let state := "1-" ++ base64_without_padding (map entropy (seq 32 32)) in
  ev_path start = "/" →
  parse_body env (ev_body start) = Ok parsed1 →
  requested_session_duration env start = Ok duration →
  requested_action start = "aws-web-console" →
  get_role_arn env (event_query start) = PNone →
  ev_path page = "/redirect_uri" →
  parse_body env (ev_body page) = Ok parsed2 →
  cookie_of_outcome (lambda_handler env start entropy w1) = Some (event_session env page) →
  ev_path callback = "/redirect_callback" →
  ev_httpMethod callback = "POST" →
  parse_body env (ev_body callback) = Ok (PDict d) →
  cookie_of_outcome (lambda_handler env page entropy2 w2)
  = Some (event_session env callback) →
  dict_get d "error" = PNone →
  dict_get d "state" = PStr state →
  dict_get d "code" ≠ PNone →
  perform env (TokenEndpoint (dict_get d "code") (PStr code_verifier)) = Ok id_token →
  (∃ claims, perform env (ValidateIdToken id_token) = Ok claims) →
  ∃ cookie,
    cookie_of_outcome (lambda_handler env callback entropy3 w3) = Some cookie ∧
    cookie !! "client_workflow_state" = Some (PStr "role_picker") ∧
    cookie !! "id_token" = Some id_token ∧
    cookie !! "oidc_state" = Some (PStr state) ∧
    cookie !! "code_verifier" = Some (PStr code_verifier) ∧
    cookie !! "session_duration" = Some (PInt duration).
Proof.
  intros code_verifier state Hpath1 Hparse1 Hduration Haction Hrole
    Hpath2 Hparse2 Hcookie1 Hpath3 Hmethod3 Hparse3 Hcookie2
    Herror Hstate Hcode Htoken Hvalid.
  destruct (start_transition start entropy w1 parsed1 duration Hpath1 Hparse1 Hduration)
    as (c0 & Hrun1 & Ha & Hs & Hv & Hd & _ & _ & _ & _ & Harn & _).
  rewrite Haction in Ha. rewrite Hrole in Harn. simpl in Harn.
  unfold cookie_of_outcome in Hcookie1. rewrite Hrun1 in Hcookie1. simpl in Hcookie1.
  injection Hcookie1 as Hc0.
  assert (Hrun2 : cookie_of_outcome (lambda_handler env page entropy2 w2)
                  = Some (<["client_workflow_state" := PStr "redirecting"]> c0)).
  { unfold lambda_handler. rewrite Hpath2, Hparse2. run.
    unfold event_session, event_cookie, event_headers in Hc0. by rewrite <- Hc0. }
  rewrite Hrun2 in Hcookie2. injection Hcookie2 as Hc1.
  unfold event_session, event_cookie, event_headers in Hc1.
  set (cookie_header := default "" (default ∅ (ev_headers callback) !! "Cookie")) in *.
  assert (Hlogin : exchange_succeeds env cookie_header d id_token).
  { unfold exchange_succeeds, py_get. rewrite <- Hc1.
    rewrite !lookup_insert_ne by discriminate. rewrite Hs, Hv. simpl.
    by split_and!. }
  unfold lambda_handler. rewrite Hpath3, Hmethod3, Hparse3. fold cookie_header. run.
  rewrite (login_ok _ _ _ _ Hlogin). simpl.
  unfold py_get. rewrite <- Hc1. rewrite !lookup_insert_ne by discriminate.
  rewrite Ha, Harn. simpl.
  eexists. split; [reflexivity|].
  split_and!; lookup_store; done.
Qed.

(** ** The callback within the handler *)

(** The request that carries a callback is answered with what the
    callback returns, and with the 500 of line 393 when the callback
    raises; the store of the callback is a variable of its own. *)
Lemma callback_through_lambda_handler event entropy w parsed_body source_ip :
  ev_path event = "/redirect_callback" →
  ev_httpMethod event = "POST" →
  parse_body env (ev_body event) = Ok parsed_body →
  let outcome :=
    handle_oidc_redirect_callback env (event_cookie event) parsed_body source_ip w in
  lambda_handler env event entropy w
  = (match outcome.1 with
     | Ok response => Ok response
     | Raise _ => Ok (plain_response 500 "Error")
     end,
     {| store := event_session env event; trace := trace outcome.2 |}).
Proof.
  intros Hpath Hmethod Hparse outcome. subst outcome.
  unfold lambda_handler. rewrite Hpath, Hmethod, Hparse. run_handler.
  match goal with
  | |- context [handle_oidc_redirect_callback env ?c ?b ?ip ?st] =>
      change (handle_oidc_redirect_callback env c b ip st)
        with (handle_oidc_redirect_callback env (event_cookie event) parsed_body
                source_ip w)
  end.
  by destruct (handle_oidc_redirect_callback env (event_cookie event) parsed_body
                 source_ip w) as [[response|e] st].
Qed.



(** C7, as the code has it.  A callback of a session whose action is
    ['rebuild-group-role-map'], after a successful token exchange, first
    writes the state [info] with the message of the rebuild being
    processed and then calls the trigger.  When the trigger returns, the
    holder of the token is read for the log line and the state is
    written again as [info], with the message of the rebuild being
    initiated.  When the trigger raises [AccessDenied], the one failure
    that line 135 handles, the state is written as [error] with the
    fixed message.  In these two cases the callback returns its answer,
    and the keys of the record other than the workflow state and value
    are those of the signed-in session.  Any other exception of the
    trigger, and an exception of the lookup of the holder, leaves the
    callback with the store still in the state of the rebuild being
    processed: the state [error] is not written.  The request that
    carries the callback is answered in every case: with the answer of
    the callback, and with the 500 of line 393, which has no cookie,
    when the callback raises. *)
Theorem callback_rebuild_outcomes cookie_header d source_ip id_token w :
  exchange_succeeds env cookie_header d id_token →
  py_get (get_store env cookie_header) "action" = PStr "rebuild-group-role-map" →
  let keys := jwks (get_discovery_document env) in
  let session := get_store env cookie_header in
  let signed_in := <["id_token" := id_token]> session in
  let trigger := TriggerGroupRoleMapRebuild keys id_token in
  let holder := GetEmailOrUsername keys id_token in
  let processing :=
    <["client_workflow_value" := PDict [("message", PStr "Processing rebuild...")]]>
      (<["client_workflow_state" := PStr "info"]> signed_in) in
  let begun :=
    (trace w ++ login_calls env cookie_header d id_token ++
     [Assign "id_token" id_token;
      Assign "client_workflow_state" (PStr "info");
      Assign "client_workflow_value" (PDict [("message", PStr "Processing rebuild...")]);
      Called trigger])%list in
  let outcome := handle_oidc_redirect_callback env cookie_header (PDict d) source_ip w in
  match perform env trigger with
  | Ok _ =>
      match perform env holder with
      | Ok _ =>
          let settled :=
            <["client_workflow_value" :=
                PDict [("message", PStr "Group Role Map rebuild initiated")]]>
              (<["client_workflow_state" := PStr "info"]> processing) in
          outcome
          = (Ok (return_api_gateway_json (Some settled) None),
             {| store := settled;
                trace := (begun ++
                  [Called holder;
                   Assign "client_workflow_state" (PStr "info");
                   Assign "client_workflow_value"
                     (PDict [("message", PStr "Group Role Map rebuild initiated")])])%list |})
          ∧ ∀ k, k ≠ "client_workflow_state" → k ≠ "client_workflow_value" →
                 settled !! k = signed_in !! k
      | Raise e =>
          outcome
          = (Raise e, {| store := processing; trace := (begun ++ [Called holder])%list |})
      end
  | Raise (AccessDenied _) =>
      let settled :=
        <["client_workflow_value" := PDict [("message", PStr "Access denied")]]>
          (<["client_workflow_state" := PStr "error"]> processing) in
      outcome
      = (Ok (return_api_gateway_json (Some settled) None),
         {| store := settled;
            trace := (begun ++
              [Assign "client_workflow_state" (PStr "error");
               Assign "client_workflow_value" (PDict [("message", PStr "Access denied")])])%list |})
      ∧ ∀ k, k ≠ "client_workflow_state" → k ≠ "client_workflow_value" →
             settled !! k = signed_in !! k
  | Raise e =>
      outcome = (Raise e, {| store := processing; trace := begun |})
  end ∧
  (∀ event entropy,
     ev_path event = "/redirect_callback" →
     ev_httpMethod event = "POST" →
     parse_body env (ev_body event) = Ok (PDict d) →
     event_cookie event = cookie_header →
     lambda_handler env event entropy w
     = (match outcome.1 with
        | Ok response => Ok response
        | Raise _ => Ok (plain_response 500 "Error")
        end,
        {| store := session; trace := trace outcome.2 |})).
Proof.
  intros Hlogin Haction keys session signed_in trigger holder processing begun outcome.
  split.
  2:{ intros event entropy Hpath Hmethod Hparse <-.
      apply (callback_through_lambda_handler event entropy w (PDict d) source_ip
               Hpath Hmethod Hparse). }
  assert (Hkeys : ∀ v1 v2 k,
            k ≠ "client_workflow_state" → k ≠ "client_workflow_value" →
            <["client_workflow_value" := v2]>
              (<["client_workflow_state" := v1]> processing) !! k = signed_in !! k).
  { intros v1 v2 k H1 H2. unfold processing. by rewrite !lookup_insert_ne. }
  subst outcome.
  destruct (perform env trigger) as [result|e] eqn:Htrigger;
    [destruct (perform env holder) as [email|e] eqn:Hholder|destruct e];
    try split; try (by apply Hkeys);
    run; rewrite (login_ok _ _ _ _ Hlogin); simpl;
    rewrite py_get_insert_ne, Haction by discriminate; simpl;
    lookup_store; fold keys trigger; rewrite Htrigger; simpl;
    lookup_store; fold keys holder; rewrite ?Hholder; simpl;
    do 2 f_equal; same_trace.
Qed.

(** ** The body of a request *)

(** X1.  An exception of the decoding or of the parsing of the body that
    is neither [json.JSONDecodeError] nor [TypeError] is not handled by
    line 279 and is raised outside the [try] of line 284: it leaves
    [lambda_handler], whatever the path and the method of the request
    are, and nothing is written or called. *)
Theorem unhandled_parse_exception_escapes event entropy w e :
  match b64decode (ev_body event) with
  | Ok decoded_body => json_loads env decoded_body
  | Raise e' => Raise e'
  end = Raise e →
  (∀ msg, e ≠ JSONDecodeError msg) →
  (∀ msg, e ≠ TypeError msg) →
  parse_body env (ev_body event) = Raise e ∧
  lambda_handler env event entropy w
  = (Raise e, {| store := event_session env event; trace := trace w |}).
Proof.
  intros Hraw HJ HT.
  assert (Hparse : parse_body env (ev_body event) = Raise e).
  { unfold parse_body. rewrite Hraw.
    destruct e; try reflexivity; [by destruct (HT msg)|by destruct (HJ msg)]. }
  split; [exact Hparse|]. by apply lambda_handler_parse_raises.
Qed.

(** X2.  A null body, which is what a request without a body has, makes
    [base64.b64decode] raise a [TypeError]; line 279 handles it and the
    body is replaced by the error record, with the null body and the
    message of the exception.  A role pick that carries it is answered
    with the 403 of line 332: nothing is written to the session, no
    helper is called and no cookie is sent. *)
Theorem role_pick_with_null_body event entropy w :
  ev_path event = "/api/roles" →
  ev_httpMethod event = "POST" →
  ev_body event = None →
  parse_body env (ev_body event)
  = Ok (PDict [("error", PStr "Unable to parse POST data");
               ("body", PNone);
               ("exception",
                PStr "argument should be a bytes-like object or ASCII string, not 'NoneType'")]) ∧
  lambda_handler env event entropy w
  = (Ok (plain_response 403 "Invalid POST data"),
     {| store := event_session env event; trace := trace w |}) ∧
  cookie_of_response (plain_response 403 "Invalid POST data") = None.
Proof.
  intros Hpath Hmethod Hbody.
  destruct (role_pick_unparsed_body_rejected event entropy w
              (TypeError "argument should be a bytes-like object or ASCII string, not 'NoneType'")
              Hpath Hmethod) as [Hparse Hrun].
  - by rewrite Hbody.
  - eexists. by right.
  - rewrite Hbody in Hparse at 2. by split_and!.
Qed.

End Properties.

(** * The properties on the concrete deployment *)

Lemma callback_denied_is_fixed_witness :
  dict_get Demo.denied_params "error" ≠ PNone ∧
  field_of_outcome
    (handle_oidc_redirect_callback Demo.env "federated-aws-rp=console"
       (PDict Demo.denied_params) "203.0.113.7" initial_world)
    "client_workflow_value"
  = Some (PDict [("message", PStr "Access denied")]).
Proof.
  assert (H : dict_get Demo.denied_params "error" ≠ PNone) by (vm_compute; discriminate).
  split; [exact H|].
  rewrite (callback_denied_is_fixed Demo.env "federated-aws-rp=console"
             Demo.denied_params "203.0.113.7" initial_world (or_introl H)).
  vm_compute. reflexivity.
Defined.

Lemma start_pkce_pair_witness :
  parse_body Demo.env (ev_body Demo.start) = Ok Demo.no_body ∧
  requested_session_duration Demo.env Demo.start = Ok 43200 ∧
  String.length (base64_without_padding (map Demo.entropy (seq 0 32))) = 43%nat.
Proof.
  split_and!; [reflexivity..|].
  exact (proj1 (proj2 (start_pkce_pair Demo.env Demo.start Demo.entropy initial_world
                         Demo.no_body 43200 eq_refl eq_refl eq_refl))).
Defined.

Lemma start_emits_redirect_and_cookie_witness :
  parse_body Demo.env (ev_body Demo.start) = Ok Demo.no_body ∧
  requested_session_duration Demo.env Demo.start = Ok 43200 ∧
  ∃ response w',
    lambda_handler Demo.env Demo.start Demo.entropy initial_world = (Ok response, w') ∧
    status_of_response response = Some 302.
Proof.
  split_and!; [reflexivity..|].
  destruct (proj1 (start_emits_redirect_and_cookie Demo.env Demo.start Demo.entropy
                     initial_world Demo.no_body 43200 eq_refl eq_refl eq_refl))
    as (response & w' & _ & _ & _ & _ & Hrun & Hstatus & _).
  by exists response, w'.
Defined.

(** The claim that the start leaves the workflow state ['redirecting']
    fails on the first request of a flow: the cookie of the answer has
    the state null. *)
Lemma start_state_is_null_not_redirecting :
  field_of_outcome
    (lambda_handler Demo.env Demo.start Demo.entropy initial_world)
    "client_workflow_state" = Some PNone ∧
  field_of_outcome
    (lambda_handler Demo.env Demo.start Demo.entropy initial_world)
    "client_workflow_state" ≠ Some (PStr "redirecting").
Proof. split; [by vm_compute|]. vm_compute. discriminate. Qed.

Lemma role_pick_missing_field_rejected_witness :
  parse_body Demo.env (ev_body Demo.pick_without_alias)
  = Ok (PDict [("arn", PStr Demo.admin_arn); ("role", PStr "Admin")]) ∧
  ¬ has_field (PDict [("arn", PStr Demo.admin_arn); ("role", PStr "Admin")]) "alias" ∧
  ∃ status text,
    lambda_handler Demo.env Demo.pick_without_alias Demo.entropy initial_world
    = (Ok (plain_response status text),
       {| store := event_session Demo.env Demo.pick_without_alias;
          trace := trace initial_world |}) ∧
    (status = 403 ∨ status = 500).
Proof.
  assert (Hparse : parse_body Demo.env (ev_body Demo.pick_without_alias)
                   = Ok (PDict [("arn", PStr Demo.admin_arn); ("role", PStr "Admin")]))
    by (vm_compute; reflexivity).
  assert (Hmissing : ¬ has_field (PDict [("arn", PStr Demo.admin_arn); ("role", PStr "Admin")])
                         "alias")
    by (intros [x Hx]; vm_compute in Hx; discriminate).
  split_and!; [exact Hparse|exact Hmissing|].
  apply (role_pick_missing_field_rejected Demo.env Demo.pick_without_alias Demo.entropy
           initial_world _ eq_refl eq_refl Hparse).
  intros (_ & Halias & _). exact (Hmissing Halias).
Defined.

(** The claim that a role listing without a session is denied with a 4xx
    or with the error state fails: the answer is the generic 500. *)
Lemma role_listing_without_session_is_500 :
  event_session Demo.env Demo.list_roles = ∅ ∧
  (lambda_handler Demo.env Demo.list_roles Demo.entropy initial_world).1
  = Ok (plain_response 500 "Error") ∧
  status_of_response (plain_response 500 "Error") = Some 500 ∧
  cookie_of_response (plain_response 500 "Error") = None.
Proof. split_and!; by vm_compute. Qed.

Lemma roles_with_empty_session_witness :
  parse_body Demo.env (ev_body Demo.list_roles) = Ok Demo.no_body ∧
  event_session Demo.env Demo.list_roles = ∅ ∧
  lambda_handler Demo.env Demo.list_roles Demo.entropy initial_world
  = (Ok (plain_response 500 "Error"), {| store := ∅; trace := trace initial_world |}).
Proof.
  split_and!; [reflexivity..|].
  exact (proj1 (roles_with_empty_session Demo.env Demo.list_roles Demo.entropy
                  initial_world Demo.no_body eq_refl eq_refl eq_refl) eq_refl).
Defined.

Lemma state_query_is_read_only_witness :
  parse_body Demo.env (ev_body Demo.state_query) = Ok Demo.no_body ∧
  lambda_handler Demo.env Demo.state_query Demo.entropy initial_world
  = (Ok (return_api_gateway_json None
           (Some (PDict [("state", PStr "redirecting"); ("value", PNone)]))),
     {| store := event_session Demo.env Demo.state_query; trace := [] |}).
Proof.
  split; [reflexivity|].
  rewrite (proj2 (state_query_is_read_only Demo.env Demo.state_query Demo.entropy
                    initial_world Demo.no_body eq_refl eq_refl)).
  vm_compute. reflexivity.
Defined.

Lemma cache_flag_witness :
  parse_body Demo.env (ev_body Demo.start) = Ok Demo.no_body ∧
  requested_session_duration Demo.env Demo.start = Ok 43200 ∧
  ∃ response w' cookie,
    lambda_handler Demo.env Demo.start Demo.entropy initial_world = (Ok response, w') ∧
    cookie_of_response response = Some cookie ∧
    cookie !! "cache" = Some (PBool true).
Proof.
  split_and!; [reflexivity..|].
  destruct (proj1 (cache_flag Demo.env Demo.start Demo.entropy initial_world
                     Demo.no_body 43200 eq_refl eq_refl eq_refl))
    as (response & w' & cookie & flag & Hrun & Hcookie & Hflag & Hlower & _).
  exists response, w', cookie. split_and!; [done..|].
  rewrite Hflag. do 2 f_equal. by apply Hlower.
Defined.

(** * The further properties on the concrete deployments *)

Lemma non_ascii_body_raises_witness :
  is_ascii_str (String (ascii_of_nat 195) (String (ascii_of_nat 169) EmptyString)) = false ∧
  (lambda_handler Cases.env Cases.utf8_body Demo.entropy initial_world).1
  = Raise (ValueError "string argument should contain only ASCII characters").
Proof.
  split; [reflexivity|].
  by rewrite (non_ascii_body_raises Cases.env Cases.utf8_body Demo.entropy initial_world
                _ eq_refl eq_refl).
Defined.

Lemma heartbeat_and_shutdown_witness :
  parse_body Cases.env (ev_body Cases.shutdown) = Ok Demo.no_body ∧
  field_of_outcome (lambda_handler Cases.env Cases.shutdown Demo.entropy initial_world)
    "client_workflow_state" = Some (PStr "finished").
Proof.
  split; [reflexivity|].
  destruct (proj2 (heartbeat_and_shutdown Cases.env Cases.shutdown Demo.entropy
                     initial_world Demo.no_body eq_refl) eq_refl) as [Hrun _].
  rewrite Hrun. vm_compute. reflexivity.
Defined.

Lemma roles_method_not_allowed_witness :
  ev_httpMethod Cases.delete_roles ≠ "GET" ∧
  ev_httpMethod Cases.delete_roles ≠ "POST" ∧
  lambda_handler Cases.env Cases.delete_roles Demo.entropy initial_world
  = (Ok (plain_response 405 "Method not allowed"),
     {| store := event_session Cases.env Cases.delete_roles; trace := [] |}).
Proof.
  split_and!; [discriminate|discriminate|].
  apply (roles_method_not_allowed Cases.env Cases.delete_roles Demo.entropy initial_world
           Demo.no_body); [reflexivity|discriminate|discriminate|reflexivity].
Defined.

Lemma role_listing_witness :
  event_session Cases.env Cases.list_roles !! "id_token" = Some (PStr "admin-token") ∧
  field_of_outcome (lambda_handler Cases.env Cases.list_roles Demo.entropy initial_world)
    "client_workflow_state" = Some (PStr "awaiting_role").
Proof.
  assert (Hid : event_session Cases.env Cases.list_roles !! "id_token"
                = Some (PStr "admin-token")) by (vm_compute; reflexivity).
  split; [exact Hid|].
  pose proof (role_listing Cases.env Cases.list_roles Demo.entropy initial_world
                Demo.no_body (PStr "admin-token") eq_refl eq_refl eq_refl Hid) as H.
  cbv zeta in H. cbn [perform Cases.env Demo.answer] in H.
  rewrite H. vm_compute. reflexivity.
Defined.

Lemma callback_invalid_action_witness :
  exchange_succeeds Cases.env Cases.callback_other Demo.admin_params (PStr "admin-token") ∧
  py_get (get_store Cases.env Cases.callback_other) "action" = PStr "list-accounts" ∧
  field_of_outcome
    (handle_oidc_redirect_callback Cases.env Cases.callback_other
       (PDict Demo.admin_params) "203.0.113.7" initial_world)
    "client_workflow_value"
  = Some (PDict [("message", PStr "Invalid action argument")]).
Proof.
  assert (Hlogin : exchange_succeeds Cases.env Cases.callback_other Demo.admin_params
                     (PStr "admin-token")).
  { unfold exchange_succeeds. split_and!; [reflexivity| reflexivity | discriminate
                                          | reflexivity | by eexists]. }
  split_and!; [exact Hlogin|reflexivity|].
  rewrite (callback_invalid_action Cases.env Cases.callback_other Demo.admin_params
             "203.0.113.7" (PStr "admin-token") initial_world Hlogin);
    [vm_compute; reflexivity|vm_compute; discriminate|vm_compute; discriminate].
Defined.

Lemma callback_body_not_a_dict_witness :
  parse_body Cases.env (ev_body Cases.callback_with_list) = Ok (PList []) ∧
  lambda_handler Cases.env Cases.callback_with_list Demo.entropy initial_world
  = (Ok (plain_response 500 "Error"),
     {| store := event_session Cases.env Cases.callback_with_list; trace := [] |}).
Proof.
  assert (Hparse : parse_body Cases.env (ev_body Cases.callback_with_list) = Ok (PList []))
    by (vm_compute; reflexivity).
  split; [exact Hparse|].
  apply (callback_body_not_a_dict Cases.env Cases.callback_with_list Demo.entropy
           initial_world (PList []) eq_refl eq_refl Hparse).
  discriminate.
Defined.

Lemma role_pick_posted_fields_witness :
  parse_body Cases.env (ev_body Cases.pick) = Ok (PDict Cases.pick_params) ∧
  field_of_outcome (lambda_handler Cases.env Cases.pick Demo.entropy initial_world)
    "client_workflow_state" = Some (PStr "aws_federate") ∧
  field_of_outcome (lambda_handler Cases.env Cases.pick Demo.entropy initial_world)
    "role_arn" = Some (PStr Demo.admin_arn).
Proof.
  assert (Hparse : parse_body Cases.env (ev_body Cases.pick) = Ok (PDict Cases.pick_params))
    by (vm_compute; reflexivity).
  split; [exact Hparse|].
  destruct (role_pick_posted_fields Cases.env Cases.pick Demo.entropy initial_world
              Cases.pick_params (PStr Demo.admin_arn) (PStr "prod") (PStr "Admin")
              (PStr "someone@example.com")
              eq_refl eq_refl Hparse eq_refl eq_refl eq_refl eq_refl eq_refl)
    as (_ & _ & _ & Hurl & _).
  unfold field_of_outcome, cookie_of_outcome. rewrite (Hurl _ eq_refl).
  split; vm_compute; reflexivity.
Defined.

Lemma role_pick_lost_when_log_lookup_raises_witness :
  parse_body Cases.env_without_holder (ev_body Cases.pick) = Ok (PDict Cases.pick_params) ∧
  (lambda_handler Cases.env_without_holder Cases.pick Demo.entropy initial_world).1
  = Ok (plain_response 500 "Error") ∧
  store (lambda_handler Cases.env_without_holder Cases.pick Demo.entropy initial_world).2
    !! "client_workflow_state" = Some (PStr "aws_federate").
Proof.
  assert (Hparse : parse_body Cases.env_without_holder (ev_body Cases.pick)
                   = Ok (PDict Cases.pick_params)) by (vm_compute; reflexivity).
  split; [exact Hparse|].
  destruct (role_pick_lost_when_log_lookup_raises Cases.env_without_holder Cases.pick
              Demo.entropy initial_world Cases.pick_params
              (PStr Demo.admin_arn) (PStr "prod") (PStr "Admin")
              (PStr "https://signin.aws.amazon.com/federation?Action=login&SigninToken=t0")
              (OtherException "JWTError")
              eq_refl eq_refl Hparse eq_refl eq_refl eq_refl eq_refl eq_refl eq_refl)
    as (Hanswer & _ & Hstate & _).
  by split.
Defined.

Lemma static_resource_witness :
  parse_body Cases.env (ev_body Cases.script) = Ok Demo.no_body ∧
  (lambda_handler Cases.env Cases.script Demo.entropy initial_world).1
  = Ok (HttpResponse 200 [("Content-Type", HOptStr (Some "application/javascript"))]
          (BodyStr "console.log(1)") (Some false)).
Proof.
  split; [reflexivity|].
  rewrite (static_resource Cases.env Cases.script Demo.entropy initial_world Demo.no_body);
    [reflexivity|reflexivity|discriminate|discriminate|by intros [[=] _]
    |discriminate|discriminate|discriminate|discriminate].
Defined.

Lemma start_ignores_session_witness :
  event_session Cases.env Demo.start ≠ event_session Cases.env Cases.start_again ∧
  (lambda_handler Cases.env Demo.start Demo.entropy initial_world).1
  = (lambda_handler Cases.env Cases.start_again Demo.entropy initial_world).1.
Proof.
  split.
  - intros H. apply (f_equal (λ s : gmap string pyval, s !! "id_token")) in H.
    vm_compute in H. discriminate.
  - exact (proj1 (start_ignores_session Cases.env Demo.start Cases.start_again Demo.entropy
                    initial_world initial_world Demo.no_body Demo.no_body 43200
                    eq_refl eq_refl eq_refl eq_refl eq_refl eq_refl eq_refl)).
Defined.

Lemma start_with_bad_session_duration_witness :
  requested_session_duration Cases.env Cases.start_with_bad_duration
  = Raise (ValueError "invalid literal for int()") ∧
  lambda_handler Cases.env Cases.start_with_bad_duration Demo.entropy initial_world
  = (Ok (plain_response 500 "Error"),
     {| store := event_session Cases.env Cases.start_with_bad_duration; trace := [] |}).
Proof.
  split; [reflexivity|].
  exact (start_with_bad_session_duration Cases.env Cases.start_with_bad_duration
           Demo.entropy initial_world Demo.no_body _ eq_refl eq_refl eq_refl).
Defined.

Lemma session_parameters_are_kept_witness :
  (lambda_handler Cases.env Cases.shutdown Demo.entropy initial_world).1
  = Ok (ApiGatewayJson
          (Some (<["client_workflow_state" := PStr "finished"]>
                   (event_session Cases.env Cases.shutdown))) None) ∧
  (<["client_workflow_state" := PStr "finished"]> (event_session Cases.env Cases.shutdown))
    !! "code_verifier"
  = event_session Cases.env Cases.shutdown !! "code_verifier".
Proof.
  assert (Hrun : (lambda_handler Cases.env Cases.shutdown Demo.entropy initial_world).1
                 = Ok (ApiGatewayJson
                         (Some (<["client_workflow_state" := PStr "finished"]>
                                  (event_session Cases.env Cases.shutdown))) None))
    by (vm_compute; reflexivity).
  split; [exact Hrun|].
  apply (proj1 (session_parameters_are_kept Cases.env Cases.shutdown Demo.entropy
                  initial_world _ _ ltac:(discriminate) Hrun eq_refl)).
  eapply bool_decide_eq_true_1. reflexivity.
Defined.

Lemma error_answers_carry_no_cookie_witness :
  (lambda_handler Cases.env Cases.delete_roles Demo.entropy initial_world).1
  = Ok (plain_response 405 "Method not allowed") ∧
  cookie_of_response (plain_response 405 "Method not allowed") = None.
Proof.
  assert (Hrun : (lambda_handler Cases.env Cases.delete_roles Demo.entropy initial_world).1
                 = Ok (plain_response 405 "Method not allowed"))
    by (vm_compute; reflexivity).
  split; [exact Hrun|].
  apply (error_answers_carry_no_cookie Cases.env Cases.delete_roles Demo.entropy
           initial_world _ 405 Hrun eq_refl). lia.
Defined.

Lemma sign_in_round_trip_witness :
  cookie_of_outcome (lambda_handler Cases.env Demo.start Demo.entropy initial_world)
  = Some (event_session Cases.env Cases.page) ∧
  cookie_of_outcome (lambda_handler Cases.env Cases.page Demo.entropy initial_world)
  = Some (event_session Cases.env Cases.callback) ∧
  parse_body Cases.env (ev_body Cases.callback) = Ok (PDict Cases.callback_params) ∧
  ∃ cookie,
    cookie_of_outcome (lambda_handler Cases.env Cases.callback Demo.entropy initial_world)
    = Some cookie ∧
    cookie !! "client_workflow_state" = Some (PStr "role_picker") ∧
    cookie !! "id_token" = Some (PStr "admin-token").
Proof.
  assert (H1 : cookie_of_outcome
                 (lambda_handler Cases.env Demo.start Demo.entropy initial_world)
               = Some (event_session Cases.env Cases.page)) by (vm_compute; reflexivity).
  assert (H2 : cookie_of_outcome
                 (lambda_handler Cases.env Cases.page Demo.entropy initial_world)
               = Some (event_session Cases.env Cases.callback)) by (vm_compute; reflexivity).
  assert (H3 : parse_body Cases.env (ev_body Cases.callback)
               = Ok (PDict Cases.callback_params)) by (vm_compute; reflexivity).
  split_and!; [exact H1|exact H2|exact H3|].
  destruct (sign_in_round_trip Cases.env Demo.start Cases.page Cases.callback
              Demo.entropy Demo.entropy Demo.entropy initial_world initial_world initial_world
              Demo.no_body Demo.no_body Cases.callback_params 43200 (PStr "admin-token")
              eq_refl eq_refl eq_refl eq_refl eq_refl eq_refl eq_refl H1
              eq_refl eq_refl H3 H2 eq_refl)
    as (cookie & Hrun & Hstate & Htoken & _);
    [vm_compute; reflexivity|discriminate|reflexivity|by eexists|].
  exists cookie. by split_and!.
Defined.

(** * The callback on deployments whose helpers fail *)



(** The claim that a failure of the rebuild trigger settles the session
    to [error] fails where the trigger fails with anything other than
    [AccessDenied]: after a successful token exchange the callback
    raises, the store of the callback is left in the state [info] of the
    rebuild being processed, and the request is answered with the 500,
    which has no cookie: the client is not told the state [error]. *)
Lemma rebuild_callback_not_settled_when_trigger_fails :
  exchange_succeeds Failing.env_trigger_fails "federated-aws-rp=rebuild"
    Demo.admin_params (PStr "admin-token") ∧
  get_store Failing.env_trigger_fails "federated-aws-rp=rebuild" !! "action"
  = Some (PStr "rebuild-group-role-map") ∧
  parse_body Failing.env_trigger_fails (ev_body Failing.rebuild_callback)
  = Ok (PDict Demo.admin_params) ∧
  perform Failing.env_trigger_fails
    (TriggerGroupRoleMapRebuild (jwks (get_discovery_document Failing.env_trigger_fails))
       (PStr "admin-token"))
  = Raise (OtherException "ClientError") ∧
  let callback :=
    handle_oidc_redirect_callback Failing.env_trigger_fails
      "federated-aws-rp=rebuild" (PDict Demo.admin_params) "203.0.113.7"
      initial_world in
  let outcome :=
    lambda_handler Failing.env_trigger_fails Failing.rebuild_callback Demo.entropy
      initial_world in
  callback.1 = Raise (OtherException "ClientError") ∧
  store callback.2 !! "client_workflow_state" = Some (PStr "info") ∧
  store callback.2 !! "client_workflow_value"
  = Some (PDict [("message", PStr "Processing rebuild...")]) ∧
  outcome.1 = Ok (plain_response 500 "Error") ∧
  status_of_response (plain_response 500 "Error") = Some 500 ∧
  cookie_of_outcome outcome = None ∧
  field_of_outcome outcome "client_workflow_state" ≠ Some (PStr "error").
Proof.
  split_and!; try (by vm_compute).
  unfold exchange_succeeds.
  split_and!; [reflexivity|reflexivity|discriminate|reflexivity|by eexists].
Qed.

Lemma callback_rebuild_outcomes_witness :
  exchange_succeeds Demo.env "federated-aws-rp=rebuild" Demo.user_params
    (PStr "user-token") ∧
  field_of_outcome
    (handle_oidc_redirect_callback Demo.env "federated-aws-rp=rebuild"
       (PDict Demo.user_params) "203.0.113.7" initial_world)
    "client_workflow_state"
  = Some (PStr "error") ∧
  field_of_outcome
    (lambda_handler Demo.env Failing.rebuild_callback Demo.entropy initial_world)
    "client_workflow_value"
  = Some (PDict [("message", PStr "Group Role Map rebuild initiated")]).
Proof.
  assert (Huser : exchange_succeeds Demo.env "federated-aws-rp=rebuild"
                    Demo.user_params (PStr "user-token")).
  { unfold exchange_succeeds.
    split_and!; [reflexivity|reflexivity|discriminate|reflexivity|by eexists]. }
  assert (Hadmin : exchange_succeeds Demo.env "federated-aws-rp=rebuild"
                     Demo.admin_params (PStr "admin-token")).
  { unfold exchange_succeeds.
    split_and!; [reflexivity|reflexivity|discriminate|reflexivity|by eexists]. }
  split_and!; [exact Huser| |].
  - pose proof (proj1 (callback_rebuild_outcomes Demo.env "federated-aws-rp=rebuild"
                         Demo.user_params "203.0.113.7" (PStr "user-token")
                         initial_world Huser eq_refl)) as H.
    cbv zeta in H.
    change (perform Demo.env
              (TriggerGroupRoleMapRebuild (jwks (get_discovery_document Demo.env))
                 (PStr "user-token")))
      with (@Raise pyval (AccessDenied (PStr "not in the rebuild group"))) in H.
    cbv beta iota in H. destruct H as [H _].
    unfold field_of_outcome, cookie_of_outcome. rewrite H. vm_compute. reflexivity.
  - rewrite (proj2 (callback_rebuild_outcomes Demo.env "federated-aws-rp=rebuild"
                      Demo.admin_params "203.0.113.7" (PStr "admin-token")
                      initial_world Hadmin eq_refl)
               Failing.rebuild_callback Demo.entropy eq_refl eq_refl eq_refl eq_refl).
    vm_compute. reflexivity.
Defined.

Lemma unhandled_parse_exception_escapes_witness :
  (∀ msg, BinasciiError "Incorrect padding" ≠ JSONDecodeError msg) ∧
  (lambda_handler Demo.env Failing.pick_with_bad_base64 Demo.entropy initial_world).1
  = Raise (BinasciiError "Incorrect padding").
Proof.
  assert (HJ : ∀ msg, BinasciiError "Incorrect padding" ≠ JSONDecodeError msg)
    by discriminate.
  split; [exact HJ|].
  by rewrite (proj2 (unhandled_parse_exception_escapes Demo.env
                       Failing.pick_with_bad_base64 Demo.entropy initial_world
                       (BinasciiError "Incorrect padding") eq_refl HJ
                       ltac:(discriminate))).
Defined.

Lemma role_pick_with_null_body_witness :
  ev_body Failing.pick_without_body = None ∧
  lambda_handler Demo.env Failing.pick_without_body Demo.entropy initial_world
  = (Ok (plain_response 403 "Invalid POST data"),
     {| store := event_session Demo.env Failing.pick_without_body;
        trace := trace initial_world |}).
Proof.
  split; [reflexivity|].
  exact (proj1 (proj2 (role_pick_with_null_body Demo.env Failing.pick_without_body
                         Demo.entropy initial_world eq_refl eq_refl eq_refl))).
Defined.

(** * The decoding of a body on examples *)

(** One data character more than a multiple of four: the message of
    [binascii.Error] carries the count of the data characters, whatever
    is skipped between them. *)
Lemma b64decode_one_character_too_many :
  b64decode (Some "abcde")
  = Raise (BinasciiError "Invalid base64-encoded string: number of data characters (5) cannot be 1 more than a multiple of 4") ∧
  b64decode (Some "a b c d e") = b64decode (Some "abcde") ∧
  b64decode (Some "ab=cde") = b64decode (Some "abcde") ∧
  b64decode (Some "a")
  = Raise (BinasciiError "Invalid base64-encoded string: number of data characters (1) cannot be 1 more than a multiple of 4").
Proof. split_and!; reflexivity. Qed.

(** Padding that is missing, and text after complete padding *)
Lemma b64decode_padding :
  b64decode (Some "abc") = Raise (BinasciiError "Incorrect padding") ∧
  b64decode (Some "YQ==a") = Ok [Byte.x61] ∧
  b64decode (Some "") = Ok [].
Proof. split_and!; reflexivity. Qed.
